(** * Hermes [util.py]: notification dispatch

    A shallow embedding of [hermes/util.py] (Python 2): the random id
    generator, the Slack webhook notifier, the e-mail notifier and the
    [PluginHelper] HTTP pass-throughs, followed by the properties the
    specification states about them.

    Conventions of the embedding.
    - Python byte strings are [string]; the duck-typed arguments
      ([recipients], [cc], [settings.email_always_copy]) are values of
      [PyVal].
    - The collaborators the module calls (MIME rendering, [requests],
      [smtplib]) are fields of a [World]; each may answer with an exception.
    - A call of the module is a computation in [Eff]: the list of the
      outward calls it made, in order, and either a returned value or the
      exception that escaped. *)

From Stdlib Require Import ZArith Ascii String List Lia DecimalString.
From stdpp Require Import base gmap strings list.

Set Warnings "-register-all".
Local Open Scope string_scope.
Local Open Scope list_scope.

(** ** Python values *)

(** The values a caller (or the settings file) can put in a
    string-or-list position.  [PyNone] and [PyBool] stand for the values
    that are neither strings nor lists. *)
Inductive PyVal : Type :=
| PyNone
| PyBool (b : bool)
| PyStr (s : string)
| PyList (l : list PyVal).

(** Python's truth value: [None], [False], [''] and [[]] are false. *)
Definition truthy (v : PyVal) : bool :=
  match v with
  | PyNone => false
  | PyBool b => b
  | PyStr "" => false
  | PyStr _ => true
  | PyList [] => false
  | PyList _ => true
  end.

(** Truth value of an optional string argument ([None] or a string). *)
Definition truthy_opt (o : option string) : bool :=
  match o with
  | None => false
  | Some "" => false
  | Some _ => true
  end.

(** [isinstance(v, basestring)] *)
Definition is_basestring (v : PyVal) : bool :=
  match v with PyStr _ => true | _ => false end.

(** [type(v).__name__] *)
Definition type_name (v : PyVal) : string :=
  match v with
  | PyNone => "NoneType"
  | PyBool _ => "bool"
  | PyStr _ => "str"
  | PyList _ => "list"
  end.

(** Exceptions carry their class name and [exc.message]. *)
Record PyExn : Type := mkExn { exn_class : string; exn_message : string }.

Inductive PyResult (A : Type) : Type :=
| Returns (a : A)
| Raises (e : PyExn).
Arguments Returns {A} a.
Arguments Raises {A} e.

Definition TypeError (m : string) : PyExn := mkExn "TypeError" m.
Definition IndexError (m : string) : PyExn := mkExn "IndexError" m.

(** ** Strings: [split], [join], [repr] *)

Definition comma : ascii := ","%char.

(** [s.split(sep)] for a one-character separator: never the empty list,
    [''.split(',')] is [['']]. *)
Fixpoint split (sep : ascii) (s : string) : list string :=
  match s with
  | EmptyString => [EmptyString]
  | String c rest =>
      if Ascii.eqb c sep then EmptyString :: split sep rest
      else match split sep rest with
           | [] => [String c EmptyString]
           | field :: fields => String c field :: fields
           end
  end.

(** [sep.join(l)] on a list of strings. *)
Definition join (sep : string) (l : list string) : string := String.concat sep l.

Definition hex_digit (n : nat) : ascii :=
  match n with
  | 0 => "0" | 1 => "1" | 2 => "2" | 3 => "3" | 4 => "4" | 5 => "5" | 6 => "6"
  | 7 => "7" | 8 => "8" | 9 => "9" | 10 => "a" | 11 => "b" | 12 => "c"
  | 13 => "d" | 14 => "e" | _ => "f"
  end%char.

Fixpoint contains_char (c : ascii) (s : string) : bool :=
  match s with
  | EmptyString => false
  | String d rest => Ascii.eqb c d || contains_char c rest
  end.

(** The quote [repr] of a byte string chooses: double quotes only when the
    string has a single quote and no double quote. *)
Definition double_quote : ascii := ascii_of_nat 34.

Definition repr_quote (s : string) : ascii :=
  if contains_char "'"%char s && negb (contains_char double_quote s)
  then double_quote else "'"%char.

Definition repr_char (quote c : ascii) : string :=
  let n := nat_of_ascii c in
  if Ascii.eqb c quote || Ascii.eqb c "\"%char then String "\" (String c "")
  else if Nat.eqb n 9 then "\t"
  else if Nat.eqb n 10 then "\n"
  else if Nat.eqb n 13 then "\r"
  else if Nat.ltb n 32 || Nat.leb 127 n
       then String "\" (String "x" (String (hex_digit (n / 16)) (String (hex_digit (n mod 16)) "")))
  else String c "".

Fixpoint repr_body (quote : ascii) (s : string) : string :=
  match s with
  | EmptyString => EmptyString
  | String c rest => repr_char quote c +:+ repr_body quote rest
  end.

Definition repr_str (s : string) : string :=
  let q := repr_quote s in String q (repr_body q s +:+ String q "").

(** [repr(v)]; a list shows the [repr] of its items between brackets. *)
Fixpoint py_repr (v : PyVal) : string :=
  match v with
  | PyNone => "None"
  | PyBool true => "True"
  | PyBool false => "False"
  | PyStr s => repr_str s
  | PyList l => "[" +:+ join ", " (List.map py_repr l) +:+ "]"
  end.

(** [str(v)], what a [{}] field of [str.format] shows: a string is shown
    as it is, everything else as its [repr]. *)
Definition py_str (v : PyVal) : string :=
  match v with
  | PyStr s => s
  | _ => py_repr v
  end.

Definition nat_to_string (n : nat) : string :=
  NilEmpty.string_of_uint (Nat.to_uint n).

(** [list(v)]: the items an iteration over [v] yields ([list.extend],
    [str.join]); a string yields its characters. *)
Fixpoint chars_of (s : string) : list string :=
  match s with
  | EmptyString => []
  | String c rest => String c EmptyString :: chars_of rest
  end.

Definition py_iter (v : PyVal) : PyResult (list PyVal) :=
  match v with
  | PyList l => Returns l
  | PyStr s => Returns (List.map PyStr (chars_of s))
  | _ => Raises (TypeError ("'" +:+ type_name v +:+ "' object is not iterable"))
  end.

(** The items of a [str.join] argument must all be strings; the error
    names the first one that is not. *)
Fixpoint join_items (i : nat) (l : list PyVal) : PyResult (list string) :=
  match l with
  | [] => Returns []
  | PyStr s :: rest =>
      match join_items (S i) rest with
      | Returns fields => Returns (s :: fields)
      | Raises e => Raises e
      end
  | v :: _ =>
      Raises (TypeError ("sequence item " +:+ nat_to_string i +:+
                         ": expected string, " +:+ type_name v +:+ " found"))
  end.

(** [sep.join(v)] on a Python value. *)
Definition py_join (sep : string) (v : PyVal) : PyResult string :=
  match v with
  | PyList l =>
      match join_items 0 l with
      | Returns fields => Returns (join sep fields)
      | Raises e => Raises e
      end
  | PyStr s => Returns (join sep (chars_of s))
  | _ => Raises (TypeError "can only join an iterable")
  end.

(** [v + l] where [l] is a list. *)
Definition py_add_list (v : PyVal) (l : list PyVal) : PyResult (list PyVal) :=
  match v with
  | PyList l0 => Returns (l0 ++ l)
  | PyStr _ => Raises (TypeError "cannot concatenate 'str' and 'list' objects")
  | _ => Raises (TypeError ("unsupported operand type(s) for +: '" +:+
                            type_name v +:+ "' and 'list'"))
  end.

Definition newline : string := String (ascii_of_nat 10) EmptyString.

(** ** Collaborators *)

(** [settings]: the fields of the configuration this module reads. *)
Record Settings : Type := mkSettings {
  slack_webhook : option string;
  slack_proxyhost : option string;
  email_notifications : bool;
  email_always_copy : PyVal;
  email_sender_address : string;
  environment : string;
  dev_email_recipient : string;
  query_server : string
}.

(** [email.mime]: a text part or a multipart container.  [headers] are the
    headers set with [msg[name] = value], in the order they were set (the
    content headers the constructors add themselves are left implicit). *)
Inductive MimeMessage : Type :=
| MIMEText (text subtype : string) (headers : list (string * string))
| MIMEMultipart (subtype : string) (parts : list MimeMessage)
    (headers : list (string * string)).

(** [msg.attach(part)] *)
Definition attach (msg part : MimeMessage) : MimeMessage :=
  match msg with
  | MIMEMultipart st parts hs => MIMEMultipart st (parts ++ [part]) hs
  | MIMEText _ _ _ => msg
  end.

(** [msg[name] = value] appends a header. *)
Definition set_header (msg : MimeMessage) (name value : string) : MimeMessage :=
  match msg with
  | MIMEText t st hs => MIMEText t st (hs ++ [(name, value)])
  | MIMEMultipart st parts hs => MIMEMultipart st parts (hs ++ [(name, value)])
  end.

Definition headers_of (msg : MimeMessage) : list (string * string) :=
  match msg with
  | MIMEText _ _ hs => hs
  | MIMEMultipart _ _ hs => hs
  end.

(** [msg[name]]: the first header of that name. *)
Definition get_header (msg : MimeMessage) (name : string) : option string :=
  snd <$> List.find (fun h => String.eqb (fst h) name) (headers_of msg).

(** What [requests] hands back. *)
Record Response : Type := mkResponse { status_code : Z; content : string }.

(** The calls this module makes on the outside, as a caller's log of them. *)
Inductive Event : Type :=
| LogDebug (text : string)
| LogWarn (text : string)
| HttpGet (url : string) (params : gmap string string)
| HttpPost (url : string) (params : option (gmap string string))
    (json : gmap string string) (proxies : option (gmap string string))
| SmtpConnect (host : string)
| SmtpSendmail (from_addr : string) (to_addrs : list PyVal) (msg : string)
| SmtpQuit.

(** How the outside answers.  [dict_str] is [str] of a dict (the order in
    which CPython lists the keys is left to it). *)
Record World : Type := mkWorld {
  as_string : MimeMessage -> PyResult string;
  dict_str : gmap string string -> string;
  requests_get : string -> gmap string string -> PyResult Response;
  requests_post : string -> option (gmap string string) -> gmap string string ->
                  option (gmap string string) -> PyResult Response;
  smtp_connect : string -> PyResult unit;
  smtp_sendmail : string -> list PyVal -> string -> PyResult unit;
  smtp_quit : PyResult unit
}.

(** ** The effect monad *)

Definition Eff (A : Type) : Type := (list Event * PyResult A)%type.

Definition eff_ret {A} (a : A) : Eff A := ([], Returns a).

Definition eff_bind {A B} (m : Eff A) (k : A -> Eff B) : Eff B :=
  match m with
  | (t, Returns a) => let '(t', r) := k a in (t ++ t', r)
  | (t, Raises e) => (t, Raises e)
  end.

(** A value computed inside Python (it may raise, it calls nothing). *)
Definition lift {A} (r : PyResult A) : Eff A := ([], r).

(** An outward call and its answer. *)
Definition call {A} (ev : Event) (answer : PyResult A) : Eff A := ([ev], answer).

(** [isinstance(e, Exception)]: of the built-in classes, [BaseException]
    itself, [KeyboardInterrupt], [SystemExit] and [GeneratorExit] do not
    derive from [Exception]. *)
Definition is_Exception (e : PyExn) : bool :=
  negb (existsb (String.eqb (exn_class e))
                ["BaseException"; "KeyboardInterrupt"; "SystemExit"; "GeneratorExit"]).

(** [try: m  except Exception as exc: h exc]: what does not derive from
    [Exception] is not caught. *)
Definition try_except {A} (m : Eff A) (h : PyExn -> Eff A) : Eff A :=
  match m with
  | (t, Raises e) =>
      if is_Exception e then let '(t', r) := h e in (t ++ t', r)
      else (t, Raises e)
  | (t, Returns a) => (t, Returns a)
  end.

Definition trace {A} (m : Eff A) : list Event := fst m.
Definition outcome {A} (m : Eff A) : PyResult A := snd m.

Notation "'do' x <- m 'in' k" := (eff_bind m (fun x => k))
  (at level 10, x name, m at level 100, k at level 200, only parsing).
Notation "'run' m 'in' k" := (eff_bind m (fun _ => k))
  (at level 10, m at level 100, k at level 200, only parsing).

Definition log_debug (text : string) : Eff unit := call (LogDebug text) (Returns tt).
Definition log_warn (text : string) : Eff unit := call (LogWarn text) (Returns tt).

(** ** [id_generator] *)

Definition ascii_lowercase : string := "abcdefghijklmnopqrstuvwxyz".
Definition digits : string := "0123456789".

(** [random.choice(chars)], the [k]-th draw from the generator: the draw
    [rand k] selects the index [int(random() * len(chars))], which is below
    [len(chars)]; indexing the empty string raises [IndexError]. *)
Definition random_choice (rand : nat -> nat) (k : nat) (chars : string) : PyResult ascii :=
  match String.get (rand k mod String.length chars) chars with
  | Some c => Returns c
  | None => Raises (IndexError "string index out of range")
  end.

(** [''.join(random.choice(chars) for _ in range(n))], drawing from the
    [k]-th draw on. *)
Fixpoint choices (rand : nat -> nat) (k n : nat) (chars : string) : PyResult string :=
  match n with
  | O => Returns EmptyString
  | S n' =>
      match random_choice rand k chars with
      | Raises e => Raises e
      | Returns c =>
          match choices rand (S k) n' chars with
          | Raises e => Raises e
          | Returns s => Returns (String c s)
          end
      end
  end.

(** [id_generator(size=6, chars=string.ascii_lowercase + string.digits)];
    an omitted argument is [None] here.  [range(size)] is empty for a
    negative [size]. *)
Definition id_generator (rand : nat -> nat) (size : option Z) (chars : option string)
  : PyResult string :=
  let size := default 6%Z size in
  let chars := default (ascii_lowercase +:+ digits) chars in
  choices rand 0 (Z.to_nat size) chars.

Section Util.
Context (settings : Settings) (world : World).

(** ** [slack_message] *)

Definition slack_proxies : option (gmap string string) :=
  if truthy_opt (slack_proxyhost settings) then
    let host := default "" (slack_proxyhost settings) in
    Some {[ "http" := "http://" +:+ host; "https" := "http://" +:+ host ]}
  else None.

Definition slack_json (message : string) : gmap string string :=
  {[ "text" := message; "username" := "Hermes Log"; "icon_emoji" := ":hermes:" ]}.

Definition slack_message (message : string) : Eff unit :=
  if negb (truthy_opt (slack_webhook settings)) then eff_ret tt
  else
    let webhook := default "" (slack_webhook settings) in
    let proxies := slack_proxies in
    let json := slack_json message in
    try_except
      (run log_debug (webhook +:+ " " +:+ dict_str world json) in
       do response <- call (HttpPost webhook None json proxies)
                           (requests_post world webhook None json proxies) in
       eff_ret tt)
      (fun exc => log_warn ("Error writing to Slack: " +:+ exn_message exc)).

(** ** [email_message] *)

(** The local variables of [email_message] once the addressing is
    settled (lines 79-116). *)
Record Addressing : Type := mkAddressing {
  a_recipients : PyVal;
  a_extra_recipients : list PyVal;
  a_subject : string;
  a_message : string;
  a_html_message : option string
}.

(** Lines 79-80. *)
Definition normalize_recipients (recipients : PyVal) : PyVal :=
  match recipients with
  | PyStr s => PyList (List.map PyStr (split comma s))
  | _ => recipients
  end.

(** Lines 81-84. *)
Definition always_copy_recipients : list PyVal :=
  match email_always_copy settings with
  | PyStr s => List.map PyStr (split comma s)
  | v => [v]
  end.

(** Lines 86-89: a string is appended whole, anything else that is true
    is iterated over by [extend]. *)
Definition add_cc (extra_recipients : list PyVal) (cc : PyVal) : PyResult (list PyVal) :=
  if truthy cc && is_basestring cc then Returns (extra_recipients ++ [cc])
  else if truthy cc then
    match py_iter cc with
    | Returns items => Returns (extra_recipients ++ items)
    | Raises e => Raises e
    end
  else Returns extra_recipients.

(** Lines 94-116, the body of [if settings.environment == "dev"]. *)
Definition dev_redirect (a : Addressing) : Addressing :=
  let recipients_statement :=
    "To: " +:+ py_str (a_recipients a) +:+ "   CC: " +:+
    py_str (PyList (a_extra_recipients a)) +:+ newline in
  let subject := "[DEV] " +:+ a_subject a in
  let message :=
    "[DEV]: Sent to " +:+ dev_email_recipient settings +:+ newline +:+
    "Originally addressed as: " +:+ recipients_statement +:+ newline +:+ newline +:+
    a_message a in
  let html_message :=
    if truthy_opt (a_html_message a) then
      Some ("<p><strong>DEV:</strong> Sent to " +:+ dev_email_recipient settings +:+
            "<br />" +:+ "Originally addressed as: " +:+ recipients_statement +:+
            "<br/></p>" +:+ default "" (a_html_message a))
    else a_html_message a in
  mkAddressing (PyList [PyStr (dev_email_recipient settings)]) [] subject message
               html_message.

(** Lines 79-116. *)
Definition email_addressing (recipients : PyVal) (subject message : string)
    (html_message : option string) (cc : PyVal) : PyResult Addressing :=
  let recipients := normalize_recipients recipients in
  let extra_recipients := always_copy_recipients in
  match add_cc extra_recipients cc with
  | Raises e => Raises e
  | Returns extra_recipients =>
      let a := mkAddressing recipients extra_recipients subject message html_message in
      Returns (if String.eqb (environment settings) "dev" then dev_redirect a else a)
  end.

(** Lines 118-129: the message object before its headers are set.  [part1]
    is an object with content headers, hence true; [part2] decides. *)
Definition email_parts (message : string) (html_message : option string) : MimeMessage :=
  let part1 := MIMEText message "plain" [] in
  let part2 :=
    if truthy_opt html_message
    then Some (MIMEText (default "" html_message) "html" [])
    else None in
  match part2 with
  | Some part2 =>
      let msg := MIMEMultipart "alternative" [] [] in
      let msg := attach msg part1 in
      attach msg part2
  | None => part1
  end.

(** Lines 131-134. *)
Definition email_headers (a : Addressing) (sender : option string) (msg : MimeMessage)
  : PyResult MimeMessage :=
  let msg := set_header msg "Subject" (a_subject a) in
  let msg := set_header msg "From"
               (if negb (truthy_opt sender) then email_sender_address settings
                else default "" sender) in
  match py_join ", " (a_recipients a) with
  | Raises e => Raises e
  | Returns to_header =>
      let msg := set_header msg "To" to_header in
      match py_join ", " (PyList (a_extra_recipients a)) with
      | Raises e => Raises e
      | Returns cc_header => Returns (set_header msg "Cc" cc_header)
      end
  end.

(** Lines 136-140.  The arguments of [format] are evaluated before
    [logging.debug] is called. *)
Definition email_log_attempt (a : Addressing) (msg : MimeMessage) : Eff unit :=
  do everyone <- lift (py_add_list (a_recipients a) (a_extra_recipients a)) in
  do rendered <- lift (as_string world msg) in
  log_debug ("Sending email: From " +:+ email_sender_address settings +:+
             ", To " +:+ py_str (PyList everyone) +:+ ", Msg: " +:+ rendered).

(** Lines 143-149, the body of the [try]. *)
Definition email_submit (a : Addressing) (msg : MimeMessage) : Eff unit :=
  do smtp <- call (SmtpConnect "localhost") (smtp_connect world "localhost") in
  do everyone <- lift (py_add_list (a_recipients a) (a_extra_recipients a)) in
  do rendered <- lift (as_string world msg) in
  run call (SmtpSendmail (email_sender_address settings) everyone rendered)
           (smtp_sendmail world (email_sender_address settings) everyone rendered) in
  call SmtpQuit (smtp_quit world).

Definition email_message (recipients : PyVal) (subject message : string)
    (html_message : option string) (cc : PyVal) (sender : option string) : Eff unit :=
  if negb (email_notifications settings) then eff_ret tt
  else
    do a <- lift (email_addressing recipients subject message html_message cc) in
    let msg := email_parts (a_message a) (a_html_message a) in
    do msg <- lift (email_headers a sender msg) in
    run email_log_attempt a msg in
    try_except (email_submit a msg)
      (fun exc => log_warn ("Error sending email: " +:+ exn_message exc)).

(** ** [PluginHelper] *)

(** [request_get(path="", params={}, server=None)] *)
Definition request_get (path : option string) (params : option (gmap string string))
    (server : option string) : Eff Response :=
  let path := default "" path in
  let params := default ∅ params in
  let server := if negb (truthy_opt server) then query_server settings
                else default "" server in
  do response <- call (HttpGet (server +:+ path) params)
                      (requests_get world (server +:+ path) params) in
  eff_ret response.

(** [request_post(path="", params={}, json_body={}, server=None)] *)
Definition request_post (path : option string) (params : option (gmap string string))
    (json_body : option (gmap string string)) (server : option string) : Eff Response :=
  let path := default "" path in
  let params := default ∅ params in
  let json_body := default ∅ json_body in
  let server := if negb (truthy_opt server) then query_server settings
                else default "" server in
  do response <- call (HttpPost (server +:+ path) (Some params) json_body None)
                      (requests_post world (server +:+ path) (Some params) json_body None) in
  eff_ret response.

End Util.

(** ** Sample settings and worlds *)

Module Samples.

Definition prod_settings : Settings :=
  mkSettings (Some "https://hooks.example/T0") None true (PyStr "c@x.com")
             "hermes@x.com" "prod" "dev@x.com" "http://query.example".

Definition dev_settings : Settings :=
  mkSettings (Some "https://hooks.example/T0") (Some "proxy.example:3128") true
             (PyStr "c@x.com") "hermes@x.com" "dev" "dev@x.com" "http://query.example".

Definition disabled_settings : Settings :=
  mkSettings None None false (PyStr "c@x.com") "hermes@x.com" "prod" "dev@x.com"
             "http://query.example".

(** The always-copy setting given as a list. *)
Definition list_copy_settings : Settings :=
  mkSettings None None true (PyList [PyStr "c@x.com"]) "hermes@x.com" "prod"
             "dev@x.com" "http://query.example".

Definition show_header (h : string * string) : string :=
  fst h +:+ ": " +:+ snd h +:+ newline.

(** A plain rendering: the headers, then the text of each part. *)
Definition show_message (msg : MimeMessage) : string :=
  match msg with
  | MIMEText t _ hs => String.concat "" (List.map show_header hs) +:+ newline +:+ t
  | MIMEMultipart _ parts hs =>
      String.concat "" (List.map show_header hs) +:+ newline +:+
      String.concat newline
        (List.map (fun p => match p with
                            | MIMEText t _ _ => t
                            | MIMEMultipart _ _ _ => ""
                            end) parts)
  end.

(** Everything outside works. *)
Definition calm_world : World :=
  mkWorld (fun msg => Returns (show_message msg))
          (fun _ => "{...}")
          (fun _ _ => Returns (mkResponse 200 "ok"))
          (fun _ _ _ _ => Returns (mkResponse 200 "ok"))
          (fun _ => Returns tt)
          (fun _ _ _ => Returns tt)
          (Returns tt).

(** The message does not render (a byte outside ASCII in a unicode body). *)
Definition unrenderable_world : World :=
  mkWorld (fun _ => Raises (mkExn "UnicodeEncodeError" "'ascii' codec can't encode character"))
          (fun _ => "{...}")
          (fun _ _ => Returns (mkResponse 200 "ok"))
          (fun _ _ _ _ => Returns (mkResponse 200 "ok"))
          (fun _ => Returns tt)
          (fun _ _ _ => Returns tt)
          (Returns tt).

(** No relay listens on localhost, and the network is down. *)
Definition offline_world : World :=
  mkWorld (fun msg => Returns (show_message msg))
          (fun _ => "{...}")
          (fun _ _ => Raises (mkExn "ConnectionError" "connection refused"))
          (fun _ _ _ _ => Raises (mkExn "ConnectionError" "connection refused"))
          (fun _ => Raises (mkExn "error" "[Errno 111] Connection refused"))
          (fun _ _ _ => Returns tt)
          (Returns tt).

(** The relay accepts the connection and refuses the recipients. *)
Definition refusing_world : World :=
  mkWorld (fun msg => Returns (show_message msg))
          (fun _ => "{...}")
          (fun _ _ => Returns (mkResponse 200 "ok"))
          (fun _ _ _ _ => Returns (mkResponse 200 "ok"))
          (fun _ => Returns tt)
          (fun _ _ _ => Raises (mkExn "SMTPRecipientsRefused" ""))
          (Returns tt).

(** The operator interrupts the process while it talks to the outside. *)
Definition interrupted_world : World :=
  mkWorld (fun msg => Returns (show_message msg))
          (fun _ => "{...}")
          (fun _ _ => Raises (mkExn "KeyboardInterrupt" ""))
          (fun _ _ _ _ => Raises (mkExn "KeyboardInterrupt" ""))
          (fun _ => Returns tt)
          (fun _ _ _ => Raises (mkExn "KeyboardInterrupt" ""))
          (Returns tt).

(** A generator whose draws count up. *)
Definition counting_rand (k : nat) : nat := 7 * k + 3.

End Samples.

Import Samples.

(** Case analysis on the answers of the relay that the goal mentions. *)
Ltac relay_cases :=
  repeat match goal with
         | |- context [smtp_connect ?w ?h] =>
             destruct (smtp_connect w h) as [[]|?]; simpl
         | |- context [smtp_sendmail ?w ?f ?t ?m] =>
             destruct (smtp_sendmail w f t m) as [[]|?]; simpl
         | |- context [smtp_quit ?w] =>
             destruct (smtp_quit w) as [[]|?]; simpl
         | |- context [is_Exception ?e] =>
             destruct (is_Exception e) eqn:?; simpl
         end.

(** * Properties *)

(** ** Splitting and joining *)

Section SplitJoin.
Variable sep : ascii.

Lemma split_not_nil (s : string) : split sep s <> [].
Proof.
  destruct s as [|c rest]; simpl; [discriminate|].
  destruct (Ascii.eqb c sep); [discriminate|].
  destruct (split sep rest); discriminate.
Qed.

Lemma split_without_sep (s : string) :
  contains_char sep s = false -> split sep s = [s].
Proof.
  induction s as [|c rest IH]; simpl; [reflexivity|].
  intros H. apply orb_false_iff in H as [Hc Hrest].
  rewrite Ascii.eqb_sym, Hc. rewrite (IH Hrest). reflexivity.
Qed.

Lemma split_field_then_sep (field rest : string) :
  contains_char sep field = false ->
  split sep (field +:+ String sep rest) = field :: split sep rest.
Proof.
  induction field as [|c field IH]; simpl.
  - intros _. rewrite Ascii.eqb_refl. reflexivity.
  - intros H. apply orb_false_iff in H as [Hc Hfield].
    rewrite Ascii.eqb_sym, Hc. rewrite (IH Hfield). reflexivity.
Qed.

Lemma split_join (l : list string) :
  l <> [] ->
  Forall (fun field => contains_char sep field = false) l ->
  split sep (join (String sep EmptyString) l) = l.
Proof.
  intros Hne Hall. induction Hall as [|a l Ha Hall IH]; [congruence|].
  destruct l as [|b l].
  - simpl. apply split_without_sep, Ha.
  - change (join (String sep "") (a :: b :: l))
      with (a +:+ String sep (join (String sep "") (b :: l))).
    rewrite split_field_then_sep by exact Ha.
    rewrite IH by discriminate. reflexivity.
Qed.
End SplitJoin.

(** ** The shape of an [email_message] run *)

Section EmailRun.
Context (settings : Settings) (world : World).
Context (recipients : PyVal) (subject message : string)
        (html_message : option string) (cc : PyVal) (sender : option string).

(** Whatever is submitted to the relay was computed by the addressing and
    header steps of this very call. *)
Lemma email_message_sendmail_inv (f : string) (tos : list PyVal) (body : string) :
  In (SmtpSendmail f tos body)
     (trace (email_message settings world recipients subject message
                           html_message cc sender)) ->
  exists a msg,
    email_notifications settings = true /\
    email_addressing settings recipients subject message html_message cc = Returns a /\
    email_headers settings a sender
      (email_parts (a_message a) (a_html_message a)) = Returns msg /\
    py_add_list (a_recipients a) (a_extra_recipients a) = Returns tos /\
    as_string world msg = Returns body /\
    f = email_sender_address settings.
Proof.
  unfold email_message.
  destruct (email_notifications settings); simpl; [|tauto].
  destruct (email_addressing _ _ _ _ _ _) as [a|e]; simpl; [|tauto].
  destruct (email_headers _ _ _ _) as [msg|e] eqn:Hh; simpl; [|tauto].
  unfold email_log_attempt, email_submit.
  destruct (py_add_list _ _) as [everyone|e] eqn:Ha; simpl; [|tauto].
  destruct (as_string world msg) as [rendered|e] eqn:Hr; simpl; [|tauto].
  relay_cases; intros Hin; exists a, msg;
    repeat (destruct Hin as [Hin|Hin]; try discriminate; try contradiction);
    inversion Hin; subst; repeat split; auto.
Qed.

(** When the addressing, the headers and the rendering go through and the
    relay accepts the connection, the submission is made. *)
Lemma email_message_reaches_sendmail (a : Addressing) (msg : MimeMessage)
    (tos : list PyVal) (body : string) :
  email_notifications settings = true ->
  email_addressing settings recipients subject message html_message cc = Returns a ->
  email_headers settings a sender
    (email_parts (a_message a) (a_html_message a)) = Returns msg ->
  py_add_list (a_recipients a) (a_extra_recipients a) = Returns tos ->
  as_string world msg = Returns body ->
  smtp_connect world "localhost" = Returns tt ->
  In (SmtpSendmail (email_sender_address settings) tos body)
     (trace (email_message settings world recipients subject message
                           html_message cc sender)).
Proof.
  intros Hflag Haddr Hh Ha Hr Hc. unfold email_message.
  rewrite Hflag; simpl. rewrite Haddr; simpl. rewrite Hh; simpl.
  unfold email_log_attempt, email_submit.
  rewrite Ha, Hr, Hc; simpl.
  relay_cases; auto.
Qed.
End EmailRun.

(** The headers [email_headers] sets are Subject, From, To, Cc, in that
    order, on a message that had none. *)
Lemma email_headers_of_parts settings a sender msg :
  email_headers settings a sender
    (email_parts (a_message a) (a_html_message a)) = Returns msg ->
  exists to_header cc_header,
    py_join ", " (a_recipients a) = Returns to_header /\
    py_join ", " (PyList (a_extra_recipients a)) = Returns cc_header /\
    headers_of msg =
      [("Subject", a_subject a);
       ("From", if truthy_opt sender then default "" sender
                else email_sender_address settings);
       ("To", to_header); ("Cc", cc_header)].
Proof.
  unfold email_headers.
  destruct (py_join ", " (a_recipients a)) as [to_header|e]; [|discriminate].
  destruct (py_join ", " (PyList (a_extra_recipients a))) as [cc_header|e]; [|discriminate].
  intros H. inversion H; subst; clear H.
  exists to_header, cc_header. repeat split.
  unfold email_parts.
  destruct (truthy_opt (a_html_message a)), (truthy_opt sender); reflexivity.
Qed.

Lemma get_header_of (msg : MimeMessage) (hs : list (string * string)) (name : string) :
  headers_of msg = hs ->
  get_header msg name = snd <$> List.find (fun h => String.eqb (fst h) name) hs.
Proof. intros <-. reflexivity. Qed.

(** ** The dev redirect *)

(** C1. With notifications enabled and the environment set to "dev", the
    addressing step leaves exactly the dev recipient as recipient list, an
    empty extra list and the subject prefixed with "[DEV] ", whatever the
    recipients and cc arguments were; any submission to the relay goes to
    the one-element envelope holding the dev recipient, with that subject
    and an empty Cc header on the submitted message. *)
Theorem email_dev_redirect (settings : Settings) (world : World)
    (recipients : PyVal) (subject message : string) (html_message : option string)
    (cc : PyVal) (sender : option string) :
  email_notifications settings = true ->
  environment settings = "dev" ->
  (forall a,
      email_addressing settings recipients subject message html_message cc = Returns a ->
      a_recipients a = PyList [PyStr (dev_email_recipient settings)] /\
      a_extra_recipients a = [] /\
      a_subject a = "[DEV] " +:+ subject) /\
  (forall f tos body,
      In (SmtpSendmail f tos body)
         (trace (email_message settings world recipients subject message
                               html_message cc sender)) ->
      tos = [PyStr (dev_email_recipient settings)] /\
      exists msg,
        as_string world msg = Returns body /\
        get_header msg "Subject" = Some ("[DEV] " +:+ subject) /\
        get_header msg "To" = Some (dev_email_recipient settings) /\
        get_header msg "Cc" = Some "").
Proof.
  intros Hflag Hdev.
  assert (Haddr : forall a,
      email_addressing settings recipients subject message html_message cc = Returns a ->
      a_recipients a = PyList [PyStr (dev_email_recipient settings)] /\
      a_extra_recipients a = [] /\
      a_subject a = "[DEV] " +:+ subject).
  { intros a. unfold email_addressing. rewrite Hdev.
    destruct (add_cc _ cc) as [extra|e]; [|discriminate].
    simpl. intros H. inversion H; subst; clear H. simpl. auto. }
  split; [exact Haddr|].
  intros f tos body Hin.
  apply email_message_sendmail_inv in Hin
    as (a & msg & _ & Ha & Hh & Hadd & Hr & _).
  destruct (Haddr a Ha) as (Hrec & Hextra & Hsubj).
  rewrite Hrec, Hextra in Hadd. simpl in Hadd. inversion Hadd; subst tos; clear Hadd.
  split; [reflexivity|].
  exists msg. split; [exact Hr|].
  apply email_headers_of_parts in Hh as (to_h & cc_h & Hto & Hcc & Hhs).
  rewrite Hrec in Hto. rewrite Hextra in Hcc. simpl in Hto, Hcc.
  inversion Hto; inversion Hcc; subst to_h cc_h.
  rewrite !(get_header_of msg _ _ Hhs), Hsubj. simpl. auto.
Qed.

Lemma email_dev_redirect_witness :
  email_notifications dev_settings = true /\
  environment dev_settings = "dev" /\
  exists f tos body,
    In (SmtpSendmail f tos body)
       (trace (email_message dev_settings calm_world (PyStr "a@x.com,b@x.com") "Hello"
                             "body" None (PyList [PyStr "z@x.com"]) None)) /\
    tos = [PyStr "dev@x.com"].
Proof.
  split; [reflexivity|]. split; [reflexivity|].
  eexists _, _, _.
  match goal with |- In ?ev ?t /\ _ => assert (Hin : In ev t) end.
  { right; right; left. reflexivity. }
  split; [exact Hin|].
  exact (proj1 (proj2 (email_dev_redirect dev_settings calm_world
                         (PyStr "a@x.com,b@x.com") "Hello" "body" None
                         (PyList [PyStr "z@x.com"]) None eq_refl eq_refl)
                  _ _ _ Hin)).
Defined.

(** ** The notifications switch *)

(** C7. With the notifications flag off, [email_message] returns at once for
    every input: it returns normally and has called nothing (no log line,
    no rendering, no relay connection). *)
Theorem email_disabled_noop (settings : Settings) (world : World)
    (recipients : PyVal) (subject message : string) (html_message : option string)
    (cc : PyVal) (sender : option string) :
  email_notifications settings = false ->
  email_message settings world recipients subject message html_message cc sender
  = ([], Returns tt).
Proof. intros Hflag. unfold email_message. rewrite Hflag. reflexivity. Qed.

Lemma email_disabled_noop_witness :
  email_notifications disabled_settings = false /\
  email_message disabled_settings offline_world (PyBool true) "Hello" "body"
                (Some "<b>body</b>") (PyBool true) None
  = ([], Returns tt).
Proof.
  split; [reflexivity|].
  apply (email_disabled_noop disabled_settings offline_world). reflexivity.
Defined.

(** ** Envelope sender and From header *)

(** C9. Whatever is submitted to the relay is submitted with the configured
    sender address as envelope sender; the [sender] argument only decides
    the From header of the submitted message, and a [sender] that is absent
    or empty leaves the configured address there too. *)
Theorem email_envelope_sender (settings : Settings) (world : World)
    (recipients : PyVal) (subject message : string) (html_message : option string)
    (cc : PyVal) (sender : option string) (f : string) (tos : list PyVal)
    (body : string) :
  In (SmtpSendmail f tos body)
     (trace (email_message settings world recipients subject message
                           html_message cc sender)) ->
  f = email_sender_address settings /\
  exists msg,
    as_string world msg = Returns body /\
    (forall s, sender = Some s -> s <> "" -> get_header msg "From" = Some s) /\
    (sender = None \/ sender = Some "" ->
     get_header msg "From" = Some (email_sender_address settings)).
Proof.
  intros Hin.
  apply email_message_sendmail_inv in Hin
    as (a & msg & _ & _ & Hh & _ & Hr & Hf).
  split; [exact Hf|]. exists msg. split; [exact Hr|].
  apply email_headers_of_parts in Hh as (to_h & cc_h & _ & _ & Hhs).
  rewrite (get_header_of msg _ _ Hhs). simpl.
  split.
  - intros s -> Hs. destruct s; [congruence|reflexivity].
  - intros [->| ->]; reflexivity.
Qed.

Lemma email_envelope_sender_witness :
  In (SmtpSendmail "hermes@x.com" [PyStr "a@x.com"; PyStr "c@x.com"]
        (show_message
           (MIMEText "body" "plain"
              [("Subject", "Hello"); ("From", "me@x.com");
               ("To", "a@x.com"); ("Cc", "c@x.com")])))
     (trace (email_message prod_settings calm_world (PyStr "a@x.com") "Hello" "body"
                           None PyNone (Some "me@x.com"))) /\
  "hermes@x.com" = email_sender_address prod_settings.
Proof.
  assert (Hin : In (SmtpSendmail "hermes@x.com" [PyStr "a@x.com"; PyStr "c@x.com"]
                      (show_message
                         (MIMEText "body" "plain"
                            [("Subject", "Hello"); ("From", "me@x.com");
                             ("To", "a@x.com"); ("Cc", "c@x.com")])))
                   (trace (email_message prod_settings calm_world (PyStr "a@x.com")
                             "Hello" "body" None PyNone (Some "me@x.com")))).
  { right; right; left. reflexivity. }
  split; [exact Hin|].
  exact (proj1 (email_envelope_sender _ _ _ _ _ _ _ _ _ _ _ Hin)).
Defined.

(** ** [id_generator] *)

Lemma get_in_range (s : string) (n : nat) :
  n < String.length s ->
  exists c, String.get n s = Some c /\ In c (list_ascii_of_string s).
Proof.
  revert n. induction s as [|d s IH]; simpl; intros n Hn; [lia|].
  destruct n as [|n].
  - exists d. auto.
  - destruct (IH n) as (c & Hget & Hin); [lia|]. exists c. auto.
Qed.

Lemma random_choice_member (rand : nat -> nat) (k : nat) (chars : string) :
  chars <> "" ->
  exists c, random_choice rand k chars = Returns c /\ In c (list_ascii_of_string chars).
Proof.
  intros Hne. unfold random_choice.
  destruct (get_in_range chars (rand k mod String.length chars)) as (c & Hget & Hin).
  - apply Nat.mod_upper_bound. destruct chars; [congruence|simpl; lia].
  - exists c. rewrite Hget. auto.
Qed.

Lemma choices_spec (rand : nat -> nat) (chars : string) (n k : nat) :
  chars <> "" ->
  exists s, choices rand k n chars = Returns s /\
            String.length s = n /\
            Forall (fun c => In c (list_ascii_of_string chars)) (list_ascii_of_string s).
Proof.
  intros Hne. revert k. induction n as [|n IH]; intros k; simpl.
  - exists "". repeat split. constructor.
  - destruct (random_choice_member rand k chars Hne) as (c & -> & Hc).
    destruct (IH (S k)) as (s & -> & Hlen & Hall).
    exists (String c s). simpl. repeat split; [congruence|]. constructor; assumption.
Qed.

(** C10. For a size [n >= 0] and a non-empty [chars], whatever the generator
    draws, [id_generator(n, chars)] returns a string of length exactly [n]
    whose characters all occur in [chars]; with [chars] omitted they are
    lowercase ASCII letters and decimal digits. *)
Theorem id_generator_length_alphabet (rand : nat -> nat) (n : Z) (chars : string) :
  (0 <= n)%Z ->
  chars <> "" ->
  (exists s, id_generator rand (Some n) (Some chars) = Returns s /\
             Z.of_nat (String.length s) = n /\
             Forall (fun c => In c (list_ascii_of_string chars))
                    (list_ascii_of_string s)) /\
  (exists s, id_generator rand (Some n) None = Returns s /\
             Z.of_nat (String.length s) = n /\
             Forall (fun c => In c (list_ascii_of_string
                                      "abcdefghijklmnopqrstuvwxyz0123456789"))
                    (list_ascii_of_string s)).
Proof.
  intros Hn Hne. unfold id_generator. simpl. split.
  - destruct (choices_spec rand chars (Z.to_nat n) 0 Hne) as (s & Hs & Hlen & Hall).
    exists s. repeat split; [exact Hs|lia|exact Hall].
  - destruct (choices_spec rand "abcdefghijklmnopqrstuvwxyz0123456789" (Z.to_nat n) 0)
      as (s & Hs & Hlen & Hall); [discriminate|].
    exists s. repeat split; [exact Hs|lia|exact Hall].
Qed.

Lemma id_generator_length_alphabet_witness :
  (0 <= 4)%Z /\ "ab" <> "" /\
  exists s, id_generator counting_rand (Some 4%Z) (Some "ab") = Returns s /\
            Z.of_nat (String.length s) = 4%Z /\
            Forall (fun c => In c (list_ascii_of_string "ab")) (list_ascii_of_string s).
Proof.
  assert (H0 : (0 <= 4)%Z) by lia.
  assert (H1 : "ab" <> "") by discriminate.
  split; [exact H0|]. split; [exact H1|].
  exact (proj1 (id_generator_length_alphabet counting_rand 4 "ab" H0 H1)).
Defined.

(** ** [PluginHelper] *)

Lemma call_then_return {A} (ev : Event) (answer : PyResult A) :
  (do response <- call ev answer in eff_ret response) = ([ev], answer).
Proof. destruct answer; reflexivity. Qed.

(** C8. [request_get] and [request_post] make exactly one request, to the
    plain concatenation [server + path] ([server] being the configured
    query server when the argument is omitted), and their result is the
    transport's answer itself: the response it returned, or the exception it
    raised. *)
Theorem plugin_helper_passthrough (settings : Settings) (world : World)
    (path : option string) (params json_body : option (gmap string string)) :
  (request_get settings world path params None =
     ([HttpGet (query_server settings +:+ default "" path) (default ∅ params)],
      requests_get world (query_server settings +:+ default "" path) (default ∅ params))) /\
  (request_post settings world path params json_body None =
     ([HttpPost (query_server settings +:+ default "" path) (Some (default ∅ params))
                (default ∅ json_body) None],
      requests_post world (query_server settings +:+ default "" path)
                    (Some (default ∅ params)) (default ∅ json_body) None)) /\
  (forall server, server <> "" ->
     request_get settings world path params (Some server) =
       ([HttpGet (server +:+ default "" path) (default ∅ params)],
        requests_get world (server +:+ default "" path) (default ∅ params)) /\
     request_post settings world path params json_body (Some server) =
       ([HttpPost (server +:+ default "" path) (Some (default ∅ params))
                  (default ∅ json_body) None],
        requests_post world (server +:+ default "" path)
                      (Some (default ∅ params)) (default ∅ json_body) None)).
Proof.
  unfold request_get, request_post. repeat split.
  - apply call_then_return.
  - apply call_then_return.
  - destruct server; [congruence|]. apply call_then_return.
  - destruct server; [congruence|]. apply call_then_return.
Qed.

Lemma plugin_helper_passthrough_witness :
  "http://other.example" <> "" /\
  request_get prod_settings offline_world (Some "api/v1") None (Some "http://other.example")
  = ([HttpGet "http://other.exampleapi/v1" ∅],
     Raises (mkExn "ConnectionError" "connection refused")).
Proof.
  assert (H : "http://other.example" <> "") by discriminate.
  split; [exact H|].
  exact (proj1 (proj2 (proj2 (plugin_helper_passthrough prod_settings offline_world
                                (Some "api/v1") None None)) "http://other.example" H)).
Defined.

(** ** The Slack proxy map *)

Lemma slack_proxies_some (settings : Settings) (host : string) :
  slack_proxyhost settings = Some host -> host <> "" ->
  slack_proxies settings =
    Some {[ "http" := "http://" +:+ host; "https" := "http://" +:+ host ]}.
Proof.
  intros Hh Hne. unfold slack_proxies. rewrite Hh. simpl.
  destruct host; [congruence|reflexivity].
Qed.

(** C6. With a webhook configured, [slack_message] posts once, to the
    webhook, with the proxy map of the settings: when a proxy host is set
    the map has exactly the keys "http" and "https", both bound to the same
    address "http://<host>"; when none is set no proxy map is passed. *)
Theorem slack_proxy_map (settings : Settings) (world : World) (message : string)
    (webhook : string) :
  slack_webhook settings = Some webhook ->
  webhook <> "" ->
  (exists text rest,
      trace (slack_message settings world message) =
        LogDebug text
        :: HttpPost webhook None (slack_json message) (slack_proxies settings)
        :: rest /\
      forall ev, In ev rest -> exists warning, ev = LogWarn warning) /\
  (forall host, slack_proxyhost settings = Some host -> host <> "" ->
     exists proxies : gmap string string,
       slack_proxies settings = Some proxies /\
       dom proxies = {[ "http"; "https" ]} /\
       proxies !! "http" = Some ("http://" +:+ host) /\
       proxies !! "https" = Some ("http://" +:+ host)) /\
  (slack_proxyhost settings = None \/ slack_proxyhost settings = Some "" ->
   slack_proxies settings = None).
Proof.
  intros Hw Hne. split; [|split].
  - unfold slack_message. rewrite Hw.
    destruct webhook as [|c webhook]; [congruence|]. simpl.
    destruct (requests_post world _ _ _ _) as [response|e]; simpl.
    + eexists _, []. split; [reflexivity|]. intros ev [].
    + destruct (is_Exception e); simpl.
      * eexists _, [_]. split; [reflexivity|].
        intros ev [<-|[]]. eexists. reflexivity.
      * eexists _, []. split; [reflexivity|]. intros ev [].
  - intros host Hh Hhost. rewrite (slack_proxies_some settings host Hh Hhost).
    eexists. split; [reflexivity|]. split; [|split].
    + rewrite dom_insert_L, dom_singleton_L. reflexivity.
    + apply lookup_insert_eq.
    + rewrite lookup_insert_ne by discriminate. apply lookup_singleton_eq.
  - unfold slack_proxies. intros [->| ->]; reflexivity.
Qed.

Lemma slack_proxy_map_witness :
  slack_webhook dev_settings = Some "https://hooks.example/T0" /\
  "https://hooks.example/T0" <> "" /\
  exists proxies : gmap string string,
    slack_proxies dev_settings = Some proxies /\
    dom proxies = {[ "http"; "https" ]} /\
    proxies !! "http" = Some "http://proxy.example:3128" /\
    proxies !! "https" = Some "http://proxy.example:3128".
Proof.
  assert (Hne : "https://hooks.example/T0" <> "") by discriminate.
  assert (Hhost : "proxy.example:3128" <> "") by discriminate.
  split; [reflexivity|]. split; [exact Hne|].
  exact (proj1 (proj2 (slack_proxy_map dev_settings calm_world "deploy finished"
                         "https://hooks.example/T0" eq_refl Hne))
           "proxy.example:3128" eq_refl Hhost).
Defined.

(** ** Single-part and multipart messages *)

Lemma dev_redirect_html_truthy (settings : Settings) (a : Addressing) :
  truthy_opt (a_html_message (dev_redirect settings a)) = truthy_opt (a_html_message a).
Proof.
  unfold dev_redirect. simpl.
  destruct (truthy_opt (a_html_message a)) eqn:Ht; [reflexivity|exact Ht].
Qed.

Lemma email_addressing_html_truthy settings recipients subject message html_message cc a :
  email_addressing settings recipients subject message html_message cc = Returns a ->
  truthy_opt (a_html_message a) = truthy_opt html_message.
Proof.
  unfold email_addressing. destruct (add_cc _ cc) as [extra|e]; [|discriminate].
  intros H. inversion H; subst; clear H.
  destruct (String.eqb _ _); [apply dev_redirect_html_truthy|reflexivity].
Qed.

(** ** Failure containment *)

Lemma eff_bind_lift_returns {A B} (a : A) (k : A -> Eff B) :
  eff_bind (lift (Returns a)) k = k a.
Proof. unfold eff_bind, lift. destruct (k a). reflexivity. Qed.

(** Once the flag, the addressing and the headers are through, what is left
    of [email_message] is the log line and the guarded submission. *)
Lemma email_message_steps settings world recipients subject message html_message cc
    sender a msg :
  email_notifications settings = true ->
  email_addressing settings recipients subject message html_message cc = Returns a ->
  email_headers settings a sender
    (email_parts (a_message a) (a_html_message a)) = Returns msg ->
  email_message settings world recipients subject message html_message cc sender =
    (run email_log_attempt settings world a msg in
     try_except (email_submit settings world a msg)
       (fun exc => log_warn ("Error sending email: " +:+ exn_message exc))).
Proof.
  intros Hflag Ha Hh. unfold email_message. rewrite Hflag. cbv [negb].
  rewrite Ha, eff_bind_lift_returns, Hh, eff_bind_lift_returns. reflexivity.
Qed.

Lemma normalize_recipients_not_str (recipients : PyVal) :
  is_basestring (normalize_recipients recipients) = false.
Proof. destruct recipients; reflexivity. Qed.

Lemma email_addressing_recipients_not_str settings recipients subject message
    html_message cc a :
  email_addressing settings recipients subject message html_message cc = Returns a ->
  is_basestring (a_recipients a) = false.
Proof.
  unfold email_addressing. destruct (add_cc _ cc) as [extra|e]; [|discriminate].
  intros H. inversion H; subst; clear H.
  destruct (String.eqb _ _); simpl; [reflexivity|apply normalize_recipients_not_str].
Qed.

(** A recipients value that is not a string and that [join] accepts is a
    list, so [recipients + extra_recipients] goes through. *)
Lemma joined_recipients_add (v : PyVal) (extra : list PyVal) (to_header : string) :
  is_basestring v = false ->
  py_join ", " v = Returns to_header ->
  exists l, v = PyList l /\ py_add_list v extra = Returns (l ++ extra).
Proof.
  destruct v as [| |s|l]; simpl; try discriminate.
  intros _ _. exists l. auto.
Qed.

(** C4, as the specification states it, fails: with notifications enabled,
    an exception raised while the log line of step 8 is built (here the
    rendering of the message) escapes to the caller; nothing is logged. *)
Lemma email_log_failure_escapes :
  email_notifications prod_settings = true /\
  email_message prod_settings unrenderable_world (PyStr "a@x.com") "Hello" "body"
                None PyNone None
  = ([], Raises (mkExn "UnicodeEncodeError" "'ascii' codec can't encode character")).
Proof. split; reflexivity. Qed.

(** ** The always-copy setting *)

(** The one-element list of a list-valued setting does not survive the Cc
    header: outside the dev environment [", ".join] rejects it. *)
Fact always_copy_list_breaks_cc_header :
  email_message list_copy_settings calm_world (PyStr "a@x.com") "Hello" "body"
                None PyNone None
  = ([], Raises (TypeError "sequence item 0: expected string, list found")).
Proof. reflexivity. Qed.

(** ** Strings against lists *)

(** The join of no addresses is the empty string, and splitting the empty
    string gives one empty address. *)
Fact recipients_empty_join :
  normalize_recipients (PyStr (join "," [])) = PyList [PyStr ""].
Proof. reflexivity. Qed.

(** C2, as the specification states it, fails: a cc given as the comma-joined
    string of two addresses does not give the extra list that the list of
    the two addresses gives. *)
Lemma cc_joined_string_differs :
  email_addressing prod_settings (PyStr "a@x.com") "Hello" "body" None
                   (PyStr (join "," ["y@x.com"; "z@x.com"]))
  <> email_addressing prod_settings (PyStr "a@x.com") "Hello" "body" None
                      (PyList (List.map PyStr ["y@x.com"; "z@x.com"])).
Proof. discriminate. Qed.

(** C2, amended. For recipients, the comma-joined string of a non-empty list
    of addresses without commas is normalized to the same list as the list
    itself.  For cc, a string is not split: a non-empty string is appended
    to the extra list as one item, so the string form and the list form
    agree when the list holds a single non-empty address (and when it is
    empty). *)
Theorem string_and_list_forms (settings : Settings) (subject message : string)
    (html_message : option string) :
  (forall (l : list string) cc,
     l <> [] ->
     Forall (fun address => contains_char comma address = false) l ->
     email_addressing settings (PyStr (join "," l)) subject message html_message cc
     = email_addressing settings (PyList (List.map PyStr l)) subject message
                        html_message cc) /\
  (forall recipients (l : list string),
     l = [] \/ (exists address, address <> "" /\ l = [address]) ->
     email_addressing settings recipients subject message html_message
                      (PyStr (join "," l))
     = email_addressing settings recipients subject message html_message
                        (PyList (List.map PyStr l))) /\
  (forall extra s, s <> "" -> add_cc extra (PyStr s) = Returns (extra ++ [PyStr s])).
Proof.
  split; [|split].
  - intros l cc Hne Hfree. unfold email_addressing, normalize_recipients.
    change "," with (String comma ""). rewrite (split_join comma l Hne Hfree).
    reflexivity.
  - intros recipients l [->|(address & Hne & ->)]; [reflexivity|].
    unfold email_addressing, add_cc. simpl.
    destruct address; [congruence|reflexivity].
  - intros extra s Hne. unfold add_cc. destruct s; [congruence|reflexivity].
Qed.

Lemma string_and_list_forms_witness :
  ["a@x.com"; "b@x.com"] <> [] /\
  Forall (fun address => contains_char comma address = false) ["a@x.com"; "b@x.com"] /\
  email_addressing prod_settings (PyStr (join "," ["a@x.com"; "b@x.com"])) "Hello"
                   "body" None PyNone
  = email_addressing prod_settings (PyList (List.map PyStr ["a@x.com"; "b@x.com"]))
                     "Hello" "body" None PyNone.
Proof.
  assert (Hne : ["a@x.com"; "b@x.com"] <> []) by discriminate.
  assert (Hfree : Forall (fun address => contains_char comma address = false)
                         ["a@x.com"; "b@x.com"]).
  { repeat constructor. }
  split; [exact Hne|]. split; [exact Hfree|].
  exact (proj1 (string_and_list_forms prod_settings "Hello" "body" None)
           ["a@x.com"; "b@x.com"] PyNone Hne Hfree).
Defined.

(** * Further properties of the module *)

(** ** Splitting a recipients string loses nothing *)

Section SplitFields.
Variable sep : ascii.

Lemma join_split (s : string) : join (String sep EmptyString) (split sep s) = s.
Proof.
  induction s as [|c rest IH]; [reflexivity|]. simpl.
  destruct (Ascii.eqb_spec c sep) as [->|Hc].
  - pose proof (split_not_nil sep rest) as Hne.
    destruct (split sep rest) as [|field fields]; [congruence|].
    change (join (String sep "") ("" :: field :: fields))
      with (String sep (join (String sep "") (field :: fields))).
    rewrite IH. reflexivity.
  - pose proof (split_not_nil sep rest) as Hne.
    destruct (split sep rest) as [|field fields]; [congruence|].
    rewrite <- IH. destruct fields; reflexivity.
Qed.

Lemma split_fields_without_sep (s : string) :
  Forall (fun field => contains_char sep field = false) (split sep s).
Proof.
  induction s as [|c rest IH]; simpl.
  - repeat constructor.
  - destruct (Ascii.eqb_spec c sep) as [->|Hc].
    + constructor; [reflexivity|exact IH].
    + destruct (split sep rest) as [|field fields]; simpl.
      * repeat constructor. simpl. rewrite orb_false_r.
        apply Ascii.eqb_neq. congruence.
      * inversion IH as [|? ? Hfield Hfields]; subst.
        constructor; [|exact Hfields]. simpl. rewrite Hfield, orb_false_r.
        apply Ascii.eqb_neq. congruence.
Qed.
End SplitFields.

(** X1. A recipients string is normalized to a non-empty list of addresses,
    none of which holds a comma, and joining them with commas gives the
    string back: the normalization neither drops nor merges text. *)
Theorem normalize_recipients_string (s : string) :
  exists fields,
    normalize_recipients (PyStr s) = PyList (List.map PyStr fields) /\
    fields <> [] /\
    join "," fields = s /\
    Forall (fun address => contains_char comma address = false) fields.
Proof.
  exists (split comma s). split; [reflexivity|]. split; [apply split_not_nil|].
  split; [apply (join_split comma)|apply split_fields_without_sep].
Qed.

(** ** [slack_message]: opt-in and containment *)

(** X2. Without a webhook (the setting is [None] or empty) [slack_message]
    does nothing at all: no log line, no request, a normal return. *)
Theorem slack_without_webhook (settings : Settings) (world : World) (message : string) :
  slack_webhook settings = None \/ slack_webhook settings = Some "" ->
  slack_message settings world message = ([], Returns tt).
Proof. unfold slack_message. intros [->| ->]; reflexivity. Qed.

Lemma slack_without_webhook_witness :
  (slack_webhook disabled_settings = None \/ slack_webhook disabled_settings = Some "") /\
  slack_message disabled_settings offline_world "deploy finished" = ([], Returns tt).
Proof.
  assert (H : slack_webhook disabled_settings = None
              \/ slack_webhook disabled_settings = Some "") by (left; reflexivity).
  split; [exact H|].
  exact (slack_without_webhook disabled_settings offline_world "deploy finished" H).
Defined.

(** ** [email_message]: envelope and headers *)

Lemma join_items_strings (l : list PyVal) (i : nat) (fields : list string) :
  join_items i l = Returns fields -> l = List.map PyStr fields.
Proof.
  revert i fields. induction l as [|v l IH]; simpl; intros i fields H.
  - inversion H. reflexivity.
  - destruct v as [| |s|l0]; try discriminate.
    destruct (join_items (S i) l) as [rest|e] eqn:Hrest; [|discriminate].
    inversion H; subst. simpl. rewrite (IH _ _ Hrest). reflexivity.
Qed.

Lemma py_join_list_strings (sep : string) (l : list PyVal) (joined : string) :
  py_join sep (PyList l) = Returns joined ->
  exists fields, l = List.map PyStr fields /\ joined = join sep fields.
Proof.
  simpl. destruct (join_items 0 l) as [fields|e] eqn:Hf; [|discriminate].
  intros H. inversion H; subst. exists fields.
  split; [exact (join_items_strings _ _ _ Hf)|reflexivity].
Qed.

(** X9. Whatever is submitted to the relay agrees with the headers of the
    submitted message: every envelope recipient is a string, and the
    envelope is the list of addresses joined in the To header followed by
    the list joined in the Cc header. *)
Theorem email_envelope_matches_headers (settings : Settings) (world : World)
    (recipients : PyVal) (subject message : string) (html_message : option string)
    (cc : PyVal) (sender : option string) (f : string) (tos : list PyVal)
    (body : string) :
  In (SmtpSendmail f tos body)
     (trace (email_message settings world recipients subject message
                           html_message cc sender)) ->
  exists msg to_fields cc_fields,
    as_string world msg = Returns body /\
    tos = List.map PyStr (to_fields ++ cc_fields) /\
    get_header msg "To" = Some (join ", " to_fields) /\
    get_header msg "Cc" = Some (join ", " cc_fields).
Proof.
  intros Hin.
  apply email_message_sendmail_inv in Hin
    as (a & msg & _ & Ha & Hh & Hadd & Hr & _).
  pose proof (email_addressing_recipients_not_str _ _ _ _ _ _ _ Ha) as Hns.
  apply email_headers_of_parts in Hh as (to_h & cc_h & Hto & Hcc & Hhs).
  destruct (joined_recipients_add _ (a_extra_recipients a) _ Hns Hto) as (l & Hl & Hadd').
  rewrite Hadd' in Hadd. inversion Hadd; subst tos; clear Hadd.
  rewrite Hl in Hto.
  apply py_join_list_strings in Hto as (to_fields & -> & ->).
  apply py_join_list_strings in Hcc as (cc_fields & -> & ->).
  exists msg, to_fields, cc_fields.
  split; [exact Hr|]. split; [symmetry; apply List.map_app|].
  rewrite !(get_header_of msg _ _ Hhs). simpl. auto.
Qed.

Lemma email_envelope_matches_headers_witness :
  exists f tos body,
    In (SmtpSendmail f tos body)
       (trace (email_message prod_settings calm_world (PyStr "a@x.com,b@x.com") "Hello"
                             "body" None (PyList [PyStr "z@x.com"]) None)) /\
    exists to_fields cc_fields, tos = List.map PyStr (to_fields ++ cc_fields).
Proof.
  eexists _, _, _.
  match goal with |- In ?ev ?t /\ _ => assert (Hin : In ev t) end.
  { right; right; left. reflexivity. }
  split; [exact Hin|].
  destruct (email_envelope_matches_headers _ _ _ _ _ _ _ _ _ _ _ Hin)
    as (msg & to_fields & cc_fields & _ & Htos & _).
  exists to_fields, cc_fields. exact Htos.
Defined.

(** ** [email_message]: who is copied *)

Lemma add_cc_extends (base : list PyVal) (cc : PyVal) (extra : list PyVal) :
  add_cc base cc = Returns extra -> exists items, extra = base ++ items.
Proof.
  unfold add_cc. destruct (truthy cc && is_basestring cc).
  - intros H. inversion H. eauto.
  - destruct (truthy cc).
    + destruct (py_iter cc) as [items|e]; [|discriminate].
      intros H. inversion H. eauto.
    + intros H. inversion H. exists []. symmetry. apply app_nil_r.
Qed.

Lemma email_addressing_outside_dev settings recipients subject message html_message cc a :
  environment settings <> "dev" ->
  email_addressing settings recipients subject message html_message cc = Returns a ->
  a_recipients a = normalize_recipients recipients /\
  add_cc (always_copy_recipients settings) cc = Returns (a_extra_recipients a) /\
  a_subject a = subject /\ a_message a = message /\ a_html_message a = html_message.
Proof.
  intros Henv. unfold email_addressing.
  destruct (add_cc _ cc) as [extra|e]; [|discriminate].
  apply String.eqb_neq in Henv. rewrite Henv.
  intros H. inversion H; subst. simpl. auto.
Qed.

(** X11. What cc adds to the extra list: nothing when it is false ([None],
    the empty string, the empty list); the items of a list, in their order
    and with their repetitions, after the always-copy addresses; a value
    that is true but neither a string nor a list makes the call raise
    [TypeError] before anything is logged or sent. *)
Theorem cc_contribution (settings : Settings) (world : World) (recipients : PyVal)
    (subject message : string) (html_message : option string)
    (sender : option string) :
  (forall cc, truthy cc = false ->
     add_cc (always_copy_recipients settings) cc
       = Returns (always_copy_recipients settings)) /\
  (forall l,
     add_cc (always_copy_recipients settings) (PyList l)
       = Returns (always_copy_recipients settings ++ l)) /\
  (email_notifications settings = true ->
   email_message settings world recipients subject message html_message
                 (PyBool true) sender
   = ([], Raises (TypeError "'bool' object is not iterable"))).
Proof.
  split; [|split].
  - intros cc Hcc. unfold add_cc. rewrite Hcc. reflexivity.
  - intros [|v l]; unfold add_cc; simpl; [rewrite app_nil_r|]; reflexivity.
  - intros Hflag. unfold email_message. rewrite Hflag. reflexivity.
Qed.

Lemma cc_contribution_witness :
  email_notifications dev_settings = true /\
  email_message dev_settings calm_world (PyStr "a@x.com") "Hello" "body" None
                (PyBool true) None
  = ([], Raises (TypeError "'bool' object is not iterable")).
Proof.
  split; [reflexivity|].
  exact (proj2 (proj2 (cc_contribution dev_settings calm_world (PyStr "a@x.com")
                         "Hello" "body" None None)) eq_refl).
Defined.

(** ** [email_message]: malformed settings and the dev redirect *)

Lemma join_items_raises (l : list PyVal) (i : nat) (e : PyExn) :
  join_items i l = Raises e -> exn_class e = "TypeError".
Proof.
  revert i. induction l as [|v l IH]; simpl; intros i H; [discriminate|].
  destruct v as [| |s|l0]; try (inversion H; reflexivity).
  destruct (join_items (S i) l) as [rest|e0] eqn:Hrest; [discriminate|].
  inversion H; subst. exact (IH _ Hrest).
Qed.

Lemma py_join_raises (sep : string) (v : PyVal) (e : PyExn) :
  py_join sep v = Raises e -> exn_class e = "TypeError".
Proof.
  destruct v as [| |s|l]; simpl; intros H; try (inversion H; reflexivity);
    try discriminate.
  destruct (join_items 0 l) as [fields|e0] eqn:Hf; [discriminate|].
  inversion H; subst. exact (join_items_raises _ _ _ Hf).
Qed.

Lemma add_cc_raises (base : list PyVal) (cc : PyVal) (e : PyExn) :
  add_cc base cc = Raises e -> exn_class e = "TypeError".
Proof.
  unfold add_cc. destruct (truthy cc && is_basestring cc); [discriminate|].
  destruct (truthy cc); [|discriminate].
  destruct cc as [| |s|l]; simpl; intros H; inversion H; reflexivity.
Qed.

(** X12. Outside the dev environment, an always-copy setting that is not a
    string (a list, [None]) makes every call with notifications enabled
    raise [TypeError] to the caller before anything is logged or sent. *)
Theorem email_non_string_always_copy (settings : Settings) (world : World)
    (recipients : PyVal) (subject message : string) (html_message : option string)
    (cc : PyVal) (sender : option string) :
  email_notifications settings = true ->
  environment settings <> "dev" ->
  is_basestring (email_always_copy settings) = false ->
  exists e,
    email_message settings world recipients subject message html_message cc sender
      = ([], Raises e) /\
    exn_class e = "TypeError".
Proof.
  intros Hflag Henv Hcopy. unfold email_message. rewrite Hflag. cbv [negb].
  destruct (email_addressing settings recipients subject message html_message cc)
    as [a|e] eqn:Ha.
  - rewrite eff_bind_lift_returns.
    destruct (email_addressing_outside_dev _ _ _ _ _ _ _ Henv Ha) as (_ & Hcc & _).
    apply add_cc_extends in Hcc as (items & Hitems).
    assert (Hh : exists e, email_headers settings a sender
                             (email_parts (a_message a) (a_html_message a)) = Raises e
                           /\ exn_class e = "TypeError").
    { unfold email_headers.
      destruct (py_join ", " (a_recipients a)) as [to_h|e] eqn:Hto.
      - rewrite Hitems. unfold always_copy_recipients.
        destruct (email_always_copy settings) as [| |s|l]; try discriminate;
          simpl; eexists; split; reflexivity.
      - exists e. split; [reflexivity|exact (py_join_raises _ _ _ Hto)]. }
    destruct Hh as (e & -> & He). exists e. split; [reflexivity|exact He].
  - exists e. split; [reflexivity|].
    unfold email_addressing in Ha.
    destruct (add_cc (always_copy_recipients settings) cc) as [extra|e0] eqn:Hcc;
      [discriminate|].
    inversion Ha; subst. exact (add_cc_raises _ _ _ Hcc).
Qed.

Lemma email_non_string_always_copy_witness :
  email_notifications list_copy_settings = true /\
  environment list_copy_settings <> "dev" /\
  is_basestring (email_always_copy list_copy_settings) = false /\
  exists e,
    email_message list_copy_settings calm_world (PyStr "a@x.com") "Hello" "body" None
                  PyNone None = ([], Raises e) /\
    exn_class e = "TypeError".
Proof.
  assert (Henv : environment list_copy_settings <> "dev") by discriminate.
  split; [reflexivity|]. split; [exact Henv|]. split; [reflexivity|].
  exact (email_non_string_always_copy list_copy_settings calm_world (PyStr "a@x.com")
           "Hello" "body" None PyNone None eq_refl Henv eq_refl).
Defined.

(** X13. In the dev environment the redirect also hides malformed
    addressing: whatever [recipients] and the always-copy setting are, as
    long as cc is not a non-iterable true value the addressing and the
    headers go through, and if the message renders and the relay accepts the
    connection, the submission to the dev recipient is made. *)
Theorem email_dev_always_submits (settings : Settings) (world : World)
    (recipients : PyVal) (subject message : string) (html_message : option string)
    (cc : PyVal) (sender : option string) :
  email_notifications settings = true ->
  environment settings = "dev" ->
  cc <> PyBool true ->
  exists a msg,
    email_addressing settings recipients subject message html_message cc = Returns a /\
    email_headers settings a sender
      (email_parts (a_message a) (a_html_message a)) = Returns msg /\
    forall body,
      as_string world msg = Returns body ->
      smtp_connect world "localhost" = Returns tt ->
      In (SmtpSendmail (email_sender_address settings)
                       [PyStr (dev_email_recipient settings)] body)
         (trace (email_message settings world recipients subject message
                               html_message cc sender)).
Proof.
  intros Hflag Hdev Hcc.
  assert (Hadd : exists extra, add_cc (always_copy_recipients settings) cc = Returns extra).
  { unfold add_cc. destruct cc as [|[]|s|l]; simpl; try congruence; eauto.
    - destruct s; simpl; eauto.
    - destruct l; simpl; eauto. }
  destruct Hadd as (extra & Hadd).
  eexists _, _. split; [|split].
  - unfold email_addressing. rewrite Hadd, Hdev. reflexivity.
  - unfold email_headers. simpl. reflexivity.
  - intros body Hr Hc.
    eapply email_message_reaches_sendmail; try eassumption.
    + unfold email_addressing. rewrite Hadd, Hdev. reflexivity.
    + reflexivity.
    + reflexivity.
Qed.

Lemma email_dev_always_submits_witness :
  email_notifications dev_settings = true /\
  environment dev_settings = "dev" /\
  PyNone <> PyBool true /\
  exists a msg,
    email_addressing dev_settings PyNone "Hello" "body" None PyNone = Returns a /\
    email_headers dev_settings a None
      (email_parts (a_message a) (a_html_message a)) = Returns msg.
Proof.
  assert (Hcc : PyNone <> PyBool true) by discriminate.
  split; [reflexivity|]. split; [reflexivity|]. split; [exact Hcc|].
  destruct (email_dev_always_submits dev_settings calm_world PyNone "Hello" "body"
              None PyNone None eq_refl eq_refl Hcc) as (a & msg & Ha & Hh & _).
  exists a, msg. split; [exact Ha|exact Hh].
Defined.

(** ** [id_generator]: edges and content *)

(** X14. Edges of [id_generator]: a size of zero or below gives the empty
    string whatever [chars] is (the empty string included); a positive size
    with an empty [chars] raises [IndexError]; with both arguments omitted
    the id has six characters. *)
Theorem id_generator_edges (rand : nat -> nat) :
  (forall n chars, (n <= 0)%Z -> id_generator rand (Some n) chars = Returns "") /\
  (forall n, (0 < n)%Z ->
     id_generator rand (Some n) (Some "")
       = Raises (IndexError "string index out of range")) /\
  (exists s, id_generator rand None None = Returns s /\ String.length s = 6).
Proof.
  split; [|split].
  - intros n chars Hn. unfold id_generator. simpl.
    replace (Z.to_nat n) with 0 by lia. reflexivity.
  - intros n Hn. unfold id_generator. simpl.
    destruct (Z.to_nat n) as [|m] eqn:Hm; [lia|]. reflexivity.
  - unfold id_generator.
    destruct (choices_spec rand (ascii_lowercase +:+ digits) 6 0)
      as (s & Hs & Hlen & _); [discriminate|].
    exists s. split; [exact Hs|exact Hlen].
Qed.

Lemma id_generator_edges_witness :
  (0 < 3)%Z /\
  id_generator counting_rand (Some 3%Z) (Some "")
    = Raises (IndexError "string index out of range").
Proof.
  assert (H : (0 < 3)%Z) by lia.
  split; [exact H|].
  exact (proj1 (proj2 (id_generator_edges counting_rand)) 3%Z H).
Defined.

Lemma choices_positions (rand : nat -> nat) (chars : string) (n k : nat) (s : string) :
  choices rand k n chars = Returns s ->
  forall i, i < n ->
    String.get i s = String.get (rand (k + i) mod String.length chars) chars.
Proof.
  revert k s. induction n as [|n IH]; intros k s H i Hi; [lia|].
  simpl in H. unfold random_choice in H.
  destruct (String.get (rand k mod String.length chars) chars) as [c|] eqn:Hc;
    [|discriminate].
  destruct (choices rand (S k) n chars) as [rest|e] eqn:Hrest; [|discriminate].
  inversion H; subst s. destruct i as [|i]; simpl.
  - rewrite Nat.add_0_r. symmetry. exact Hc.
  - rewrite (IH _ _ Hrest i) by lia. f_equal. f_equal. f_equal. lia.
Qed.

(** X15. The characters of an id are the draws of the generator in order:
    the [i]-th character of the result is the character of [chars] selected
    by the [i]-th draw. *)
Theorem id_generator_positions (rand : nat -> nat) (n : Z) (chars s : string) (i : nat) :
  id_generator rand (Some n) (Some chars) = Returns s ->
  (Z.of_nat i < n)%Z ->
  String.get i s = String.get (rand i mod String.length chars) chars.
Proof.
  unfold id_generator. simpl. intros Hs Hi.
  apply (choices_positions rand chars (Z.to_nat n) 0 s Hs i). lia.
Qed.

Lemma id_generator_positions_witness :
  id_generator counting_rand (Some 2%Z) (Some "abc") = Returns "ab" /\
  (Z.of_nat 1 < 2)%Z /\
  String.get 1 "ab" = String.get (counting_rand 1 mod String.length "abc") "abc".
Proof.
  assert (H : (Z.of_nat 1 < 2)%Z) by (simpl; lia).
  split; [reflexivity|]. split; [exact H|].
  exact (id_generator_positions counting_rand 2 "abc" "ab" 1 eq_refl H).
Defined.

(** ** [PluginHelper]: defaults *)

Lemma append_empty_r (s : string) : s +:+ "" = s.
Proof.
  induction s as [|c s IH]; [reflexivity|].
  change (String c (s +:+ "") = String c s). rewrite IH. reflexivity.
Qed.

(** X16. An empty [server] string counts as omitted: [request_get] and
    [request_post] then go to the configured query server, exactly as
    without the argument.  With [path] omitted as well, the URL requested is
    the configured query server itself. *)
Theorem plugin_helper_defaults (settings : Settings) (world : World)
    (path : option string) (params json_body : option (gmap string string)) :
  request_get settings world path params (Some "")
    = request_get settings world path params None /\
  request_post settings world path params json_body (Some "")
    = request_post settings world path params json_body None /\
  trace (request_get settings world None params None)
    = [HttpGet (query_server settings) (default ∅ params)] /\
  trace (request_post settings world None params json_body None)
    = [HttpPost (query_server settings) (Some (default ∅ params))
                (default ∅ json_body) None].
Proof.
  split; [reflexivity|]. split; [reflexivity|].
  unfold request_get, request_post. cbn [default negb truthy_opt].
  rewrite append_empty_r, !call_then_return. split; reflexivity.
Qed.

(** ** [email_message]: the log line *)

(** X17. The debug line written before the relay is contacted describes
    what is then submitted: it names the envelope sender (the configured
    address, also when a [sender] argument was given), shows the envelope
    recipients as a Python list and ends with the very rendering that is
    submitted. *)
Theorem email_log_describes_submission (settings : Settings) (world : World)
    (recipients : PyVal) (subject message : string) (html_message : option string)
    (cc : PyVal) (sender : option string) (f : string) (tos : list PyVal)
    (body : string) :
  In (SmtpSendmail f tos body)
     (trace (email_message settings world recipients subject message
                           html_message cc sender)) ->
  exists rest,
    trace (email_message settings world recipients subject message
                         html_message cc sender)
    = LogDebug ("Sending email: From " +:+ f +:+ ", To " +:+ py_str (PyList tos) +:+
                ", Msg: " +:+ body) :: rest.
Proof.
  unfold email_message.
  destruct (email_notifications settings); simpl; [|tauto].
  destruct (email_addressing _ _ _ _ _ _) as [a|e0]; simpl; [|tauto].
  destruct (email_headers _ _ _ _) as [msg|e0]; simpl; [|tauto].
  unfold email_log_attempt, email_submit.
  destruct (py_add_list _ _) as [everyone|e0]; simpl; [|tauto].
  destruct (as_string world msg) as [rendered|e0]; simpl; [|tauto].
  relay_cases; intros Hin;
    repeat (destruct Hin as [Hin|Hin]; try discriminate; try contradiction);
    inversion Hin; subst; eexists; reflexivity.
Qed.

Lemma email_log_describes_submission_witness :
  exists f tos body rest,
    In (SmtpSendmail f tos body)
       (trace (email_message prod_settings calm_world (PyStr "a@x.com") "Hello" "body"
                             None PyNone (Some "me@x.com"))) /\
    trace (email_message prod_settings calm_world (PyStr "a@x.com") "Hello" "body"
                         None PyNone (Some "me@x.com"))
    = LogDebug ("Sending email: From " +:+ f +:+ ", To " +:+ py_str (PyList tos) +:+
                ", Msg: " +:+ body) :: rest.
Proof.
  assert (Hin : In (SmtpSendmail "hermes@x.com" [PyStr "a@x.com"; PyStr "c@x.com"]
                      (show_message
                         (MIMEText "body" "plain"
                            [("Subject", "Hello"); ("From", "me@x.com");
                             ("To", "a@x.com"); ("Cc", "c@x.com")])))
                   (trace (email_message prod_settings calm_world (PyStr "a@x.com")
                             "Hello" "body" None PyNone (Some "me@x.com")))).
  { right; right; left. reflexivity. }
  destruct (email_log_describes_submission _ _ _ _ _ _ _ _ _ _ _ Hin) as (rest & Hrest).
  eexists _, _, _, rest. split; [exact Hin|exact Hrest].
Defined.

(** * The always-copy setting given as a list *)

(** C3. The code does not do what the specification says for an always-copy
    setting that is already a list: line 84 wraps the list in a one-element
    list instead of using it as it is (the way lines 79-80 use a list of
    recipients as it is), and outside the dev environment the nested list
    makes [", ".join] at line 134 raise [TypeError] to the caller before
    anything is logged or sent. *)
Theorem always_copy_list_setting_fails :
  email_always_copy list_copy_settings = PyList [PyStr "c@x.com"] /\
  always_copy_recipients list_copy_settings = [PyList [PyStr "c@x.com"]] /\
  always_copy_recipients list_copy_settings <> [PyStr "c@x.com"] /\
  normalize_recipients (PyList [PyStr "c@x.com"]) = PyList [PyStr "c@x.com"] /\
  email_message list_copy_settings calm_world (PyStr "a@x.com") "Hello" "body"
                None PyNone None
  = ([], Raises (TypeError "sequence item 0: expected string, list found")).
Proof.
  split; [reflexivity|]. split; [reflexivity|]. split; [discriminate|].
  split; reflexivity.
Qed.

(** * Failure containment, with [except Exception] *)

Lemma email_log_attempt_raises settings world a msg e :
  outcome (email_log_attempt settings world a msg) = Raises e ->
  email_log_attempt settings world a msg = ([], Raises e).
Proof.
  unfold email_log_attempt.
  destruct (py_add_list _ _) as [everyone|e0]; simpl.
  - destruct (as_string world msg) as [rendered|e1]; simpl; [discriminate|].
    intros H. inversion H. reflexivity.
  - intros H. inversion H. reflexivity.
Qed.

(** C4, amended. In a call with notifications enabled that gets to step 8:
    if step 8 raises (the log line is built outside the [try]), the exception
    leaves [email_message] and nothing was logged; if step 8 completes, an
    exception raised by step 9 (connect, submit, quit) that derives from
    [Exception] is followed by the warning "Error sending email: <message>"
    and [email_message] returns normally.  What does not derive from
    [Exception] (a keyboard interrupt) is not caught by [except Exception]
    and leaves the call without a warning. *)
Theorem email_submit_failures_contained (settings : Settings) (world : World)
    (recipients : PyVal) (subject message : string) (html_message : option string)
    (cc : PyVal) (sender : option string) (a : Addressing) (msg : MimeMessage) :
  email_notifications settings = true ->
  email_addressing settings recipients subject message html_message cc = Returns a ->
  email_headers settings a sender
    (email_parts (a_message a) (a_html_message a)) = Returns msg ->
  (forall e, outcome (email_log_attempt settings world a msg) = Raises e ->
     email_message settings world recipients subject message html_message cc sender
     = ([], Raises e)) /\
  (outcome (email_log_attempt settings world a msg) = Returns tt ->
     (forall e, outcome (email_submit settings world a msg) = Raises e ->
        is_Exception e = true ->
        email_message settings world recipients subject message html_message cc sender
        = (trace (email_log_attempt settings world a msg)
           ++ trace (email_submit settings world a msg)
           ++ [LogWarn ("Error sending email: " +:+ exn_message e)],
           Returns tt)) /\
     (forall e, outcome (email_submit settings world a msg) = Raises e ->
        is_Exception e = false ->
        email_message settings world recipients subject message html_message cc sender
        = (trace (email_log_attempt settings world a msg)
           ++ trace (email_submit settings world a msg),
           Raises e)) /\
     (outcome (email_submit settings world a msg) = Returns tt ->
        email_message settings world recipients subject message html_message cc sender
        = (trace (email_log_attempt settings world a msg)
           ++ trace (email_submit settings world a msg),
           Returns tt))).
Proof.
  intros Hflag Ha Hh.
  rewrite (email_message_steps _ world _ _ _ _ _ _ _ _ Hflag Ha Hh).
  split.
  - intros e He. rewrite (email_log_attempt_raises _ _ _ _ _ He). reflexivity.
  - destruct (email_log_attempt settings world a msg) as [t1 [[]|e1]]; simpl;
      [intros _|discriminate].
    destruct (email_submit settings world a msg) as [t2 [[]|e2]]; simpl.
    + split; [discriminate|]. split; [discriminate|]. reflexivity.
    + split; [|split; [|discriminate]].
      * intros e He Hexc. inversion He; subst. rewrite Hexc. reflexivity.
      * intros e He Hexc. inversion He; subst. rewrite Hexc. reflexivity.
Qed.

Lemma email_submit_failures_contained_witness :
  exists a msg,
    email_notifications prod_settings = true /\
    email_addressing prod_settings (PyStr "a@x.com") "Hello" "body" None PyNone
      = Returns a /\
    email_headers prod_settings a None (email_parts (a_message a) (a_html_message a))
      = Returns msg /\
    outcome (email_log_attempt prod_settings offline_world a msg) = Returns tt /\
    outcome (email_submit prod_settings offline_world a msg)
      = Raises (mkExn "error" "[Errno 111] Connection refused") /\
    is_Exception (mkExn "error" "[Errno 111] Connection refused") = true /\
    email_message prod_settings offline_world (PyStr "a@x.com") "Hello" "body"
                  None PyNone None
    = (trace (email_log_attempt prod_settings offline_world a msg)
       ++ trace (email_submit prod_settings offline_world a msg)
       ++ [LogWarn "Error sending email: [Errno 111] Connection refused"],
       Returns tt).
Proof.
  eexists _, _.
  split; [reflexivity|]. split; [reflexivity|]. split; [reflexivity|].
  split; [reflexivity|]. split; [reflexivity|]. split; [reflexivity|].
  exact (proj1 (proj2 (email_submit_failures_contained prod_settings offline_world
                         (PyStr "a@x.com") "Hello" "body" None PyNone None _ _
                         eq_refl eq_refl eq_refl) eq_refl) _ eq_refl eq_refl).
Defined.

(** A keyboard interrupt during the submission is not contained: it leaves
    [email_message], and no warning is logged. *)
Fact email_interrupt_escapes :
  outcome (email_message prod_settings interrupted_world (PyStr "a@x.com") "Hello"
                         "body" None PyNone None)
    = Raises (mkExn "KeyboardInterrupt" "") /\
  forall w, ~ In (LogWarn w)
                 (trace (email_message prod_settings interrupted_world (PyStr "a@x.com")
                                       "Hello" "body" None PyNone None)).
Proof.
  split; [reflexivity|].
  intros w [H|[H|[H|[]]]]; discriminate.
Qed.

(** * The message that is rendered and submitted *)

Lemma email_parts_by_html settings recipients subject message html_message cc a :
  email_addressing settings recipients subject message html_message cc = Returns a ->
  email_parts (a_message a) (a_html_message a) =
    (if truthy_opt html_message
     then MIMEMultipart "alternative"
            [MIMEText (a_message a) "plain" [];
             MIMEText (default "" (a_html_message a)) "html" []] []
     else MIMEText (a_message a) "plain" []).
Proof.
  intros Ha. unfold email_parts.
  rewrite (email_addressing_html_truthy _ _ _ _ _ _ _ Ha).
  destruct (truthy_opt html_message); reflexivity.
Qed.

Lemma email_headers_keep_parts settings a sender parts msg :
  email_headers settings a sender parts = Returns msg ->
  match parts with
  | MIMEText text subtype _ => msg = MIMEText text subtype (headers_of msg)
  | MIMEMultipart subtype l _ => msg = MIMEMultipart subtype l (headers_of msg)
  end.
Proof.
  unfold email_headers.
  destruct (py_join _ (a_recipients a)); [|discriminate].
  destruct (py_join _ (PyList _)); [|discriminate].
  intros H. inversion H; subst. destruct parts; reflexivity.
Qed.

(** C5. The message an [email_message] call renders and submits to the relay
    is, when [html_message] is absent or empty, the single plain-text part
    holding the message text; when [html_message] is present, a multipart
    "alternative" container of exactly two parts, the plain-text part first
    and the HTML part second (outside the dev environment the texts are the
    arguments themselves).  And the call does submit that message: once the
    addressing and headers are through, the message renders and the relay
    accepts the connection, its rendering is what is handed to the relay. *)
Theorem email_wire_message_shape (settings : Settings) (world : World)
    (recipients : PyVal) (subject message : string) (html_message : option string)
    (cc : PyVal) (sender : option string) :
  (forall f tos body,
     In (SmtpSendmail f tos body)
        (trace (email_message settings world recipients subject message
                              html_message cc sender)) ->
     exists a msg,
       email_addressing settings recipients subject message html_message cc
         = Returns a /\
       as_string world msg = Returns body /\
       (truthy_opt html_message = false ->
          msg = MIMEText (a_message a) "plain" (headers_of msg)) /\
       (truthy_opt html_message = true ->
          exists html,
            a_html_message a = Some html /\
            msg = MIMEMultipart "alternative"
                    [MIMEText (a_message a) "plain" []; MIMEText html "html" []]
                    (headers_of msg)) /\
       (environment settings <> "dev" ->
          a_message a = message /\ a_html_message a = html_message)) /\
  (forall a msg body,
     email_notifications settings = true ->
     email_addressing settings recipients subject message html_message cc
       = Returns a ->
     email_headers settings a sender
       (if truthy_opt html_message
        then MIMEMultipart "alternative"
               [MIMEText (a_message a) "plain" [];
                MIMEText (default "" (a_html_message a)) "html" []] []
        else MIMEText (a_message a) "plain" []) = Returns msg ->
     as_string world msg = Returns body ->
     smtp_connect world "localhost" = Returns tt ->
     exists tos,
       In (SmtpSendmail (email_sender_address settings) tos body)
          (trace (email_message settings world recipients subject message
                                html_message cc sender))).
Proof.
  split.
  - intros f tos body Hin.
    apply email_message_sendmail_inv in Hin
      as (a & msg & _ & Ha & Hh & _ & Hr & _).
    exists a, msg. split; [exact Ha|]. split; [exact Hr|].
    rewrite (email_parts_by_html _ _ _ _ _ _ _ Ha) in Hh.
    pose proof (email_addressing_html_truthy _ _ _ _ _ _ _ Ha) as Ht.
    apply email_headers_keep_parts in Hh.
    split; [|split].
    + intros Hhtml. rewrite Hhtml in Hh. exact Hh.
    + intros Hhtml. rewrite Hhtml in Hh, Ht.
      destruct (a_html_message a) as [html|]; [|discriminate].
      exists html. split; [reflexivity|exact Hh].
    + intros Henv.
      destruct (email_addressing_outside_dev _ _ _ _ _ _ _ Henv Ha)
        as (_ & _ & _ & Hm & Hhm).
      split; assumption.
  - intros a msg body Hflag Ha Hh Hr Hc.
    rewrite <- (email_parts_by_html _ _ _ _ _ _ _ Ha) in Hh.
    pose proof (email_addressing_recipients_not_str _ _ _ _ _ _ _ Ha) as Hns.
    destruct (email_headers_of_parts _ _ _ _ Hh) as (to_h & cc_h & Hto & _ & _).
    destruct (joined_recipients_add _ (a_extra_recipients a) _ Hns Hto)
      as (l & _ & Hadd).
    exists (l ++ a_extra_recipients a).
    exact (email_message_reaches_sendmail settings world recipients subject message
             html_message cc sender a msg _ body Hflag Ha Hh Hadd Hr Hc).
Qed.

Lemma email_wire_message_shape_witness :
  email_notifications prod_settings = true /\
  smtp_connect calm_world "localhost" = Returns tt /\
  exists tos,
    In (SmtpSendmail (email_sender_address prod_settings) tos
          (show_message
             (MIMEMultipart "alternative"
                [MIMEText "body" "plain" []; MIMEText "<b>body</b>" "html" []]
                [("Subject", "Hello"); ("From", "hermes@x.com");
                 ("To", "a@x.com"); ("Cc", "c@x.com")])))
       (trace (email_message prod_settings calm_world (PyStr "a@x.com") "Hello" "body"
                             (Some "<b>body</b>") PyNone None)).
Proof.
  split; [reflexivity|]. split; [reflexivity|].
  exact (proj2 (email_wire_message_shape prod_settings calm_world (PyStr "a@x.com")
                  "Hello" "body" (Some "<b>body</b>") PyNone None)
           _ _ _ eq_refl eq_refl eq_refl eq_refl eq_refl).
Defined.

(** * Runs of the notifiers, with [except Exception] *)

(** X3. With a webhook configured, a run of [slack_message] is the debug
    line and one post; if the post returns the call returns; if it raises
    an exception that derives from [Exception], the warning
    "Error writing to Slack: <message>" follows and the call returns
    normally; what does not derive from [Exception] leaves the call, without
    a warning. *)
Theorem slack_containment (settings : Settings) (world : World) (message : string)
    (webhook : string) :
  slack_webhook settings = Some webhook ->
  webhook <> "" ->
  exists text,
    (forall response,
       requests_post world webhook None (slack_json message) (slack_proxies settings)
         = Returns response ->
       slack_message settings world message
       = ([LogDebug text;
           HttpPost webhook None (slack_json message) (slack_proxies settings)],
          Returns tt)) /\
    (forall e,
       requests_post world webhook None (slack_json message) (slack_proxies settings)
         = Raises e ->
       is_Exception e = true ->
       slack_message settings world message
       = ([LogDebug text;
           HttpPost webhook None (slack_json message) (slack_proxies settings);
           LogWarn ("Error writing to Slack: " +:+ exn_message e)],
          Returns tt)) /\
    (forall e,
       requests_post world webhook None (slack_json message) (slack_proxies settings)
         = Raises e ->
       is_Exception e = false ->
       slack_message settings world message
       = ([LogDebug text;
           HttpPost webhook None (slack_json message) (slack_proxies settings)],
          Raises e)).
Proof.
  intros Hw Hne. unfold slack_message. rewrite Hw.
  destruct webhook as [|c webhook]; [congruence|]. simpl.
  eexists. split; [|split].
  - intros response ->. reflexivity.
  - intros e -> He. simpl. rewrite He. reflexivity.
  - intros e -> He. simpl. rewrite He. reflexivity.
Qed.

Lemma slack_containment_witness :
  slack_webhook dev_settings = Some "https://hooks.example/T0" /\
  "https://hooks.example/T0" <> "" /\
  is_Exception (mkExn "ConnectionError" "connection refused") = true /\
  outcome (slack_message dev_settings offline_world "deploy finished") = Returns tt /\
  is_Exception (mkExn "KeyboardInterrupt" "") = false /\
  outcome (slack_message dev_settings interrupted_world "deploy finished")
    = Raises (mkExn "KeyboardInterrupt" "").
Proof.
  assert (Hne : "https://hooks.example/T0" <> "") by discriminate.
  split; [reflexivity|]. split; [exact Hne|]. split; [reflexivity|].
  destruct (slack_containment dev_settings offline_world "deploy finished"
              "https://hooks.example/T0" eq_refl Hne) as (text & _ & Hcaught & _).
  destruct (slack_containment dev_settings interrupted_world "deploy finished"
              "https://hooks.example/T0" eq_refl Hne) as (text' & _ & _ & Hescapes).
  split; [rewrite (Hcaught _ eq_refl eq_refl); reflexivity|].
  split; [reflexivity|].
  rewrite (Hescapes _ eq_refl eq_refl). reflexivity.
Defined.

(** X4. With a webhook configured, what [slack_message] posts to the webhook
    is a JSON object with exactly the keys "text", "username" and
    "icon_emoji": the text is the message, the identity fields are fixed;
    no query parameters are sent, and the debug line shows the webhook and
    that payload. *)
Theorem slack_posts_payload (settings : Settings) (world : World) (message : string)
    (webhook : string) :
  slack_webhook settings = Some webhook ->
  webhook <> "" ->
  exists (json : gmap string string) proxies rest,
    trace (slack_message settings world message)
      = LogDebug (webhook +:+ " " +:+ dict_str world json)
        :: HttpPost webhook None json proxies :: rest /\
    dom json = {[ "text"; "username"; "icon_emoji" ]} /\
    json !! "text" = Some message /\
    json !! "username" = Some "Hermes Log" /\
    json !! "icon_emoji" = Some ":hermes:".
Proof.
  intros Hw Hne.
  assert (Htrace : exists rest,
             trace (slack_message settings world message)
             = LogDebug (webhook +:+ " " +:+ dict_str world (slack_json message))
               :: HttpPost webhook None (slack_json message) (slack_proxies settings)
               :: rest).
  { unfold slack_message. rewrite Hw.
    destruct webhook as [|c webhook]; [congruence|]. simpl.
    destruct (requests_post world _ _ _ _) as [response|e]; simpl.
    - eexists. reflexivity.
    - destruct (is_Exception e); simpl; eexists; reflexivity. }
  destruct Htrace as (rest & Htrace).
  exists (slack_json message), (slack_proxies settings), rest.
  split; [exact Htrace|]. unfold slack_json. split; [|split; [|split]].
  - rewrite !dom_insert_L, dom_singleton_L. set_solver.
  - apply lookup_insert_eq.
  - rewrite lookup_insert_ne by discriminate. apply lookup_insert_eq.
  - rewrite !lookup_insert_ne by discriminate. apply lookup_singleton_eq.
Qed.

Lemma slack_posts_payload_witness :
  slack_webhook dev_settings = Some "https://hooks.example/T0" /\
  "https://hooks.example/T0" <> "" /\
  exists (json : gmap string string) proxies rest,
    trace (slack_message dev_settings calm_world "deploy finished")
      = LogDebug ("https://hooks.example/T0" +:+ " " +:+ dict_str calm_world json)
        :: HttpPost "https://hooks.example/T0" None json proxies :: rest /\
    json !! "text" = Some "deploy finished".
Proof.
  assert (Hne : "https://hooks.example/T0" <> "") by discriminate.
  split; [reflexivity|]. split; [exact Hne|].
  destruct (slack_posts_payload dev_settings calm_world "deploy finished"
              "https://hooks.example/T0" eq_refl Hne)
    as (json & proxies & rest & Htrace & _ & Htext & _).
  exists json, proxies, rest. split; [exact Htrace|exact Htext].
Defined.

(** X5. If [email_message] raises an exception that derives from [Exception],
    it has called nothing before: no log line was written and the relay was
    not contacted.  (Only what [except Exception] does not catch can leave
    the call after the relay was contacted.) *)
Theorem email_raises_before_any_call (settings : Settings) (world : World)
    (recipients : PyVal) (subject message : string) (html_message : option string)
    (cc : PyVal) (sender : option string) (e : PyExn) :
  outcome (email_message settings world recipients subject message html_message
                         cc sender) = Raises e ->
  is_Exception e = true ->
  trace (email_message settings world recipients subject message html_message
                       cc sender) = [].
Proof.
  unfold email_message.
  destruct (email_notifications settings); simpl; [|discriminate].
  destruct (email_addressing _ _ _ _ _ _) as [a|e0]; simpl; [|reflexivity].
  destruct (email_headers _ _ _ _) as [msg|e0]; simpl; [|reflexivity].
  unfold email_log_attempt, email_submit.
  destruct (py_add_list _ _) as [everyone|e0]; simpl; [|reflexivity].
  destruct (as_string world msg) as [rendered|e0]; simpl; [|reflexivity].
  relay_cases; intros H He; try discriminate; inversion H; subst; congruence.
Qed.

Lemma email_raises_before_any_call_witness :
  outcome (email_message prod_settings calm_world (PyStr "a@x.com") "Hello" "body"
                         None (PyBool true) None)
    = Raises (TypeError "'bool' object is not iterable") /\
  is_Exception (TypeError "'bool' object is not iterable") = true /\
  trace (email_message prod_settings calm_world (PyStr "a@x.com") "Hello" "body"
                       None (PyBool true) None) = [].
Proof.
  assert (H : outcome (email_message prod_settings calm_world (PyStr "a@x.com") "Hello"
                         "body" None (PyBool true) None)
              = Raises (TypeError "'bool' object is not iterable")) by reflexivity.
  split; [exact H|]. split; [reflexivity|].
  exact (email_raises_before_any_call _ _ _ _ _ _ _ _ _ H eq_refl).
Defined.

(** X6. A run of [email_message] is empty, or it is the debug line and the
    connection to "localhost" followed by one of: nothing or a warning (the
    connection failed); one submission alone or with a warning (the
    submission failed, the connection is not quit); one submission and the
    quit, alone or with a warning.  So the log line comes before the relay
    is contacted, at most one message is submitted, and a warning, when
    there is one, is the last event. *)
Theorem email_run_shape (settings : Settings) (world : World)
    (recipients : PyVal) (subject message : string) (html_message : option string)
    (cc : PyVal) (sender : option string) :
  trace (email_message settings world recipients subject message html_message
                       cc sender) = [] \/
  exists text rest,
    trace (email_message settings world recipients subject message html_message
                         cc sender)
      = LogDebug text :: SmtpConnect "localhost" :: rest /\
    (rest = [] \/
     (exists w, rest = [LogWarn w]) \/
     exists f tos body,
       rest = [SmtpSendmail f tos body] \/
       (exists w, rest = [SmtpSendmail f tos body; LogWarn w]) \/
       rest = [SmtpSendmail f tos body; SmtpQuit] \/
       (exists w, rest = [SmtpSendmail f tos body; SmtpQuit; LogWarn w])).
Proof.
  unfold email_message.
  destruct (email_notifications settings); simpl; [|auto].
  destruct (email_addressing _ _ _ _ _ _) as [a|e0]; simpl; [|auto].
  destruct (email_headers _ _ _ _) as [msg|e0]; simpl; [|auto].
  unfold email_log_attempt, email_submit.
  destruct (py_add_list _ _) as [everyone|e0]; simpl; [|auto].
  destruct (as_string world msg) as [rendered|e0]; simpl; [|auto].
  right.
  relay_cases; eexists _, _; (split; [reflexivity|]);
    first [ left; reflexivity
          | right; left; eexists; reflexivity
          | right; right; eexists _, _, _;
            first [ left; reflexivity
                  | right; left; eexists; reflexivity
                  | right; right; left; reflexivity
                  | right; right; right; eexists; reflexivity ] ].
Qed.

(** X7. When the connection to the relay raises, nothing is submitted and
    the connection is not quit.  If the exception derives from [Exception]
    the run is the debug line, the connection attempt and the warning
    "Error sending email: <message>", and the call returns normally;
    otherwise the run stops at the connection attempt and the exception
    leaves the call. *)
Theorem email_connect_failure (settings : Settings) (world : World)
    (recipients : PyVal) (subject message : string) (html_message : option string)
    (cc : PyVal) (sender : option string) (e : PyExn) :
  smtp_connect world "localhost" = Raises e ->
  (forall f tos body,
     ~ In (SmtpSendmail f tos body)
          (trace (email_message settings world recipients subject message
                                html_message cc sender))) /\
  ~ In SmtpQuit (trace (email_message settings world recipients subject message
                                      html_message cc sender)) /\
  (trace (email_message settings world recipients subject message html_message
                        cc sender) = [] \/
   exists text,
     (is_Exception e = true /\
      email_message settings world recipients subject message html_message cc sender
      = ([LogDebug text; SmtpConnect "localhost";
          LogWarn ("Error sending email: " +:+ exn_message e)], Returns tt)) \/
     (is_Exception e = false /\
      email_message settings world recipients subject message html_message cc sender
      = ([LogDebug text; SmtpConnect "localhost"], Raises e))).
Proof.
  intros Hc. unfold email_message.
  destruct (email_notifications settings); simpl; [|intuition].
  destruct (email_addressing _ _ _ _ _ _) as [a|e0]; simpl; [|intuition].
  destruct (email_headers _ _ _ _) as [msg|e0]; simpl; [|intuition].
  unfold email_log_attempt, email_submit.
  destruct (py_add_list _ _) as [everyone|e0]; simpl; [|intuition].
  destruct (as_string world msg) as [rendered|e0]; simpl; [|intuition].
  rewrite Hc. simpl. destruct (is_Exception e); simpl.
  - split; [|split].
    + intros f tos body [H|[H|[H|[]]]]; discriminate.
    + intros [H|[H|[H|[]]]]; discriminate.
    + right. eexists. left. split; reflexivity.
  - split; [|split].
    + intros f tos body [H|[H|[]]]; discriminate.
    + intros [H|[H|[]]]; discriminate.
    + right. eexists. right. split; reflexivity.
Qed.

Lemma email_connect_failure_witness :
  smtp_connect offline_world "localhost"
    = Raises (mkExn "error" "[Errno 111] Connection refused") /\
  ~ In SmtpQuit
       (trace (email_message prod_settings offline_world (PyStr "a@x.com") "Hello"
                             "body" None PyNone None)).
Proof.
  split; [reflexivity|].
  exact (proj1 (proj2 (email_connect_failure prod_settings offline_world
                         (PyStr "a@x.com") "Hello" "body" None PyNone None _ eq_refl))).
Defined.

(** X8. When the relay's [sendmail] raises, [smtp.quit()] is not called.
    If the exception derives from [Exception] the run ends with the
    submission and the warning "Error sending email: <message>" and the call
    returns normally; otherwise the run ends with the submission and the
    exception leaves the call. *)
Theorem email_sendmail_failure (settings : Settings) (world : World)
    (recipients : PyVal) (subject message : string) (html_message : option string)
    (cc : PyVal) (sender : option string) (f : string) (tos : list PyVal)
    (body : string) (e : PyExn) :
  In (SmtpSendmail f tos body)
     (trace (email_message settings world recipients subject message
                           html_message cc sender)) ->
  smtp_sendmail world f tos body = Raises e ->
  ~ In SmtpQuit (trace (email_message settings world recipients subject message
                                      html_message cc sender)) /\
  exists text,
    (is_Exception e = true /\
     email_message settings world recipients subject message html_message cc sender
     = ([LogDebug text; SmtpConnect "localhost"; SmtpSendmail f tos body;
         LogWarn ("Error sending email: " +:+ exn_message e)], Returns tt)) \/
    (is_Exception e = false /\
     email_message settings world recipients subject message html_message cc sender
     = ([LogDebug text; SmtpConnect "localhost"; SmtpSendmail f tos body], Raises e)).
Proof.
  unfold email_message.
  destruct (email_notifications settings); simpl; [|tauto].
  destruct (email_addressing _ _ _ _ _ _) as [a|e0]; simpl; [|tauto].
  destruct (email_headers _ _ _ _) as [msg|e0]; simpl; [|tauto].
  unfold email_log_attempt, email_submit.
  destruct (py_add_list _ _) as [everyone|e0]; simpl; [|tauto].
  destruct (as_string world msg) as [rendered|e0]; simpl; [|tauto].
  destruct (smtp_connect world "localhost") as [[]|e0]; simpl.
  - destruct (smtp_sendmail world (email_sender_address settings) everyone rendered)
      as [[]|e1] eqn:Hs; simpl.
    + intros Hin Hf. exfalso.
      assert (Heq : SmtpSendmail (email_sender_address settings) everyone rendered
                    = SmtpSendmail f tos body).
      { revert Hin. relay_cases; intros Hin;
          repeat (destruct Hin as [Hin|Hin]; try discriminate; try contradiction);
          exact Hin. }
      inversion Heq; subst. congruence.
    + destruct (is_Exception e1) eqn:Hexc; simpl; intros Hin Hf.
      * assert (Heq : SmtpSendmail (email_sender_address settings) everyone rendered
                      = SmtpSendmail f tos body).
        { repeat (destruct Hin as [Hin|Hin]; try discriminate; try contradiction).
          exact Hin. }
        inversion Heq; subst. rewrite Hs in Hf. inversion Hf; subst.
        split; [intros [H|[H|[H|[H|[]]]]]; discriminate|].
        eexists. left. split; [exact Hexc|reflexivity].
      * assert (Heq : SmtpSendmail (email_sender_address settings) everyone rendered
                      = SmtpSendmail f tos body).
        { repeat (destruct Hin as [Hin|Hin]; try discriminate; try contradiction).
          exact Hin. }
        inversion Heq; subst. rewrite Hs in Hf. inversion Hf; subst.
        split; [intros [H|[H|[H|[]]]]; discriminate|].
        eexists. right. split; [exact Hexc|reflexivity].
  - destruct (is_Exception e0); simpl; intros Hin; exfalso;
      repeat (destruct Hin as [Hin|Hin]; try discriminate; try contradiction).
Qed.

Lemma email_sendmail_failure_witness :
  exists f tos body,
    In (SmtpSendmail f tos body)
       (trace (email_message prod_settings refusing_world (PyStr "a@x.com") "Hello"
                             "body" None PyNone None)) /\
    smtp_sendmail refusing_world f tos body
      = Raises (mkExn "SMTPRecipientsRefused" "") /\
    ~ In SmtpQuit
         (trace (email_message prod_settings refusing_world (PyStr "a@x.com") "Hello"
                               "body" None PyNone None)).
Proof.
  eexists _, _, _.
  match goal with |- In ?ev ?t /\ _ => assert (Hin : In ev t) end.
  { right; right; left. reflexivity. }
  split; [exact Hin|]. split; [reflexivity|].
  exact (proj1 (email_sendmail_failure prod_settings refusing_world (PyStr "a@x.com")
                  "Hello" "body" None PyNone None _ _ _ _ Hin eq_refl)).
Defined.

(** * Who is copied, outside the dev environment *)

(** X10. Outside the dev environment the always-copy addresses cannot be
    opted out of.  Every submission goes to the normalized recipients, then
    the always-copy setting (a string, or no submission is reached) split
    on commas, then what cc adds, in this order: nothing for a false cc,
    the string itself for a string cc, the items for a list cc.  An empty
    always-copy string still contributes one empty address. *)
Theorem email_always_copied (settings : Settings) (world : World)
    (recipients : PyVal) (subject message : string) (html_message : option string)
    (cc : PyVal) (sender : option string) (f : string) (tos : list PyVal)
    (body : string) :
  environment settings <> "dev" ->
  In (SmtpSendmail f tos body)
     (trace (email_message settings world recipients subject message
                           html_message cc sender)) ->
  (exists l copy items,
     normalize_recipients recipients = PyList l /\
     email_always_copy settings = PyStr copy /\
     tos = l ++ List.map PyStr (split comma copy) ++ items /\
     (truthy cc = false -> items = []) /\
     (forall s, cc = PyStr s -> s <> "" -> items = [PyStr s]) /\
     (forall l', cc = PyList l' -> items = l')) /\
  (email_always_copy settings = PyStr "" -> In (PyStr "") tos).
Proof.
  intros Henv Hin.
  apply email_message_sendmail_inv in Hin
    as (a & msg & _ & Ha & Hh & Hadd & _ & _).
  pose proof (email_addressing_recipients_not_str _ _ _ _ _ _ _ Ha) as Hns.
  apply email_headers_of_parts in Hh as (to_h & cc_h & Hto & Hcch & _).
  destruct (joined_recipients_add _ (a_extra_recipients a) _ Hns Hto) as (l & Hl & Hadd').
  rewrite Hadd' in Hadd. inversion Hadd; subst tos; clear Hadd.
  destruct (email_addressing_outside_dev _ _ _ _ _ _ _ Henv Ha) as (Hrec & Hcc & _).
  apply py_join_list_strings in Hcch as (cc_fields & Hfields & _).
  assert (Hcopy : exists copy, email_always_copy settings = PyStr copy).
  { destruct (add_cc_extends _ _ _ Hcc) as (items & Hitems).
    rewrite Hitems in Hfields. unfold always_copy_recipients in Hfields.
    destruct (email_always_copy settings) as [| |copy|l0]; eauto;
      destruct cc_fields; discriminate. }
  destruct Hcopy as (copy & Hcopy).
  assert (Hbase : always_copy_recipients settings = List.map PyStr (split comma copy)).
  { unfold always_copy_recipients. rewrite Hcopy. reflexivity. }
  rewrite Hbase in Hcc.
  assert (Hitems : exists items,
             a_extra_recipients a = List.map PyStr (split comma copy) ++ items /\
             (truthy cc = false -> items = []) /\
             (forall s, cc = PyStr s -> s <> "" -> items = [PyStr s]) /\
             (forall l', cc = PyList l' -> items = l')).
  { unfold add_cc in Hcc. destruct cc as [|[]|s|l0]; simpl in Hcc.
    - inversion Hcc. exists []. rewrite app_nil_r.
      repeat split; try discriminate; reflexivity.
    - discriminate.
    - inversion Hcc. exists []. rewrite app_nil_r.
      repeat split; try discriminate; reflexivity.
    - destruct s as [|c s]; simpl in Hcc; inversion Hcc.
      + exists []. rewrite app_nil_r. split; [reflexivity|].
        split; [reflexivity|]. split; [|discriminate].
        intros s0 Hq Hne. inversion Hq; subst. congruence.
      + exists [PyStr (String c s)]. split; [reflexivity|].
        split; [discriminate|]. split; [|discriminate].
        intros s0 Hq _. inversion Hq; subst. reflexivity.
    - destruct l0 as [|v l0]; simpl in Hcc; inversion Hcc.
      + exists []. rewrite app_nil_r. split; [reflexivity|].
        split; [reflexivity|]. split; [discriminate|].
        intros l' Hq. inversion Hq; subst. reflexivity.
      + exists (v :: l0). split; [reflexivity|].
        split; [discriminate|]. split; [discriminate|].
        intros l' Hq. inversion Hq; subst. reflexivity. }
  destruct Hitems as (items & Hextra & Hfalse & Hstr & Hlist).
  split.
  - exists l, copy, items. rewrite <- Hrec, Hl, Hextra. auto 10.
  - intros Hempty. rewrite Hcopy in Hempty. inversion Hempty; subst copy.
    rewrite Hextra. apply in_or_app. right. left. reflexivity.
Qed.

Lemma email_always_copied_witness :
  environment prod_settings <> "dev" /\
  exists f tos body,
    In (SmtpSendmail f tos body)
       (trace (email_message prod_settings calm_world (PyStr "a@x.com,b@x.com") "Hello"
                             "body" None (PyList [PyStr "z@x.com"]) None)) /\
    exists l copy items,
      normalize_recipients (PyStr "a@x.com,b@x.com") = PyList l /\
      email_always_copy prod_settings = PyStr copy /\
      tos = l ++ List.map PyStr (split comma copy) ++ items /\
      (forall l', PyList [PyStr "z@x.com"] = PyList l' -> items = l').
Proof.
  assert (Henv : environment prod_settings <> "dev") by discriminate.
  split; [exact Henv|].
  eexists _, _, _.
  match goal with |- In ?ev ?t /\ _ => assert (Hin : In ev t) end.
  { right; right; left. reflexivity. }
  split; [exact Hin|].
  destruct (proj1 (email_always_copied _ _ _ _ _ _ _ _ _ _ _ Henv Hin))
    as (l & copy & items & Hl & Hcopy & Htos & _ & _ & Hlist).
  exists l, copy, items. repeat split; assumption.
Defined.

